(** * CareCompanion front end: workflow controller and care-plan rendering

  A shallow embedding of the React front end of CareCompanion
  ([App.jsx], [components/FileUpload.jsx], [components/CarePlanDisplay.jsx],
  [components/ErrorMessage.jsx])
  together with the properties its specification states about it.

  - [JS] models the fragment of JavaScript the components rely on: JSON
    values, truthiness, property access with and without optional chaining,
    [Array.prototype.map], and the number built-ins [Math.round] and
    [Number.prototype.toFixed] over IEEE-754 binary64.
  - [Upload] models the two selection handlers of [FileUpload.jsx].
  - [App] models the state held by [App.jsx], its handlers, and the events
    a user or the network can deliver to the mounted component.
  - [Display] models the section renderers, the header line and the tab
    body of [CarePlanDisplay.jsx], and the error card of [ErrorMessage.jsx].
  - [Spec] holds the specification's own wording where a property compares
    the code with it: the failure classification, the transition table and
    the tab compositions.
  - [NumberProofs], [AppProofs] and [DisplayProofs] hold the properties the
    specification states; [StringProofs], [AppExtras], [DisplayExtras] and
    [FormatExtras] hold further properties read off the code. *)

From Stdlib Require Import ZArith List String Ascii Bool Lia.
From Stdlib Require Import Floats.SpecFloat.
Import ListNotations.

Set Implicit Arguments.
Set Warnings "-register-all".

(* ================================================================== *)
(** * The JavaScript fragment *)
(* ================================================================== *)

Module JS.

Open Scope string_scope.
Open Scope Z_scope.

(** ** Numbers: IEEE-754 binary64 *)

Definition prec : Z := 53.
Definition emax : Z := 1024.

(** A JS number is a binary64 datum; [spec_float] is the Standard
    Library's specification of those. *)
Definition number : Type := spec_float.

(** The double holding the integer [z] (exact whenever |z| <= 2^53). *)
Definition of_Z (z : Z) : number := binary_normalize prec emax z 0 false.

(** The double a decimal literal [n/d] denotes: the correctly rounded
    quotient of two exactly representable integers. *)
Definition of_ratio (n d : Z) : number := SFdiv prec emax (of_Z n) (of_Z d).

Definition mul (x y : number) : number := SFmul prec emax x y.

Definition pow2 (e : Z) : Z := 2 ^ e.

(** Number truthiness: [+0], [-0] and [NaN] are falsy. *)
Definition number_truthy (x : number) : bool :=
  match x with
  | S754_zero _ | S754_nan => false
  | S754_infinity _ | S754_finite _ _ _ => true
  end.

(** [Math.round x]: the integer nearest to [x], ties towards +infinity,
    that is floor(x + 1/2) computed exactly.  A double with a non-negative
    exponent is already integral.  A zero result keeps the sign of [x]. *)
Definition Math_round (x : number) : number :=
  match x with
  | S754_finite s m e =>
      if 0 <=? e then x
      else
        let sm := if s then Z.neg m else Z.pos m in
        let z := (2 * sm + pow2 (- e)) / (2 * pow2 (- e)) in
        if z =? 0 then S754_zero s else of_Z z
  | _ => x
  end.

(** ** Decimal digits *)

Definition digit_char (d : Z) : ascii :=
  ascii_of_nat (48 + Z.to_nat d).

Fixpoint digits_fuel (fuel : nat) (z : Z) (acc : string) : string :=
  match fuel with
  | O => acc
  | S fuel' =>
      let acc' := String (digit_char (z mod 10)) acc in
      if z <? 10 then acc' else digits_fuel fuel' (z / 10) acc'
  end.

(** Decimal representation of a non-negative integer. *)
Definition digits (z : Z) : string :=
  digits_fuel (S (Z.to_nat (Z.log2 z))) z "".

Fixpoint zeros (n : nat) : string :=
  match n with
  | O => ""
  | S n' => String "0"%char (zeros n')
  end.

(** Left-pad with zeros up to [n] characters. *)
Definition pad_left (n : nat) (s : string) : string :=
  (zeros (n - String.length s) ++ s)%string.

(** ** Values *)

(** The values [JSON.parse] can produce, plus [undefined].  Objects keep
    their keys in insertion order; the first binding of a key is the one
    that is read. *)
Inductive value : Type :=
| VUndefined
| VNull
| VBool (b : bool)
| VNum (x : number)
| VStr (s : string)
| VArr (items : list value)
| VObj (fields : list (string * value)).

(** Outcome of an evaluation that may raise. *)
Inductive result (A : Type) : Type :=
| Ok (a : A)
| Throw (e : string).

Arguments Ok {A} a.
Arguments Throw {A} e.

Definition bind {A B} (r : result A) (k : A -> result B) : result B :=
  match r with
  | Ok a => k a
  | Throw e => Throw e
  end.

Definition throws {A} (r : result A) : bool :=
  match r with
  | Ok _ => false
  | Throw _ => true
  end.

(** ToBoolean. *)
Definition truthy (v : value) : bool :=
  match v with
  | VUndefined | VNull => false
  | VBool b => b
  | VNum x => number_truthy x
  | VStr s => negb (String.eqb s "")
  | VArr _ | VObj _ => true
  end.

Definition nullish (v : value) : bool :=
  match v with
  | VUndefined | VNull => true
  | _ => false
  end.

Fixpoint lookup (fields : list (string * value)) (k : string) : value :=
  match fields with
  | [] => VUndefined
  | (k', v) :: rest => if String.eqb k k' then v else lookup rest k
  end.

(** Reading property [k] of a value that is neither [null] nor
    [undefined].  The components only read data keys and [length]; none
    of the keys they read is an inherited property of a primitive or of an
    array.  The length of a string is counted in bytes here and in UTF-16
    units in JavaScript; the components only test it for being zero, which
    the two agree on. *)
Definition prop (v : value) (k : string) : value :=
  match v with
  | VObj fields => lookup fields k
  | VArr items =>
      if String.eqb k "length" then VNum (of_Z (Z.of_nat (List.length items)))
      else VUndefined
  | VStr s =>
      if String.eqb k "length" then VNum (of_Z (Z.of_nat (String.length s)))
      else VUndefined
  | _ => VUndefined
  end.

(** [v.k] *)
Definition get (v : value) (k : string) : result value :=
  if nullish v
  then Throw ("TypeError: cannot read properties of null or undefined: " ++ k)%string
  else Ok (prop v k).

(** [v?.k] *)
Definition get_opt (v : value) (k : string) : value :=
  if nullish v then VUndefined else prop v k.

(** [a || b] *)
Definition or_else (a b : value) : value := if truthy a then a else b.

(** ** Sequencing over arrays *)

Fixpoint mapM_from {A B} (f : A -> nat -> result B) (i : nat) (l : list A)
  : result (list B) :=
  match l with
  | [] => Ok []
  | a :: rest =>
      bind (f a i) (fun b =>
      bind (mapM_from f (S i) rest) (fun bs => Ok (b :: bs)))
  end.

(** [v.map((item, index) => f item index)].  Only arrays have [map];
    on [undefined] the property read itself raises, on any other value the
    call of a non-function does. *)
Definition array_map {B} (v : value) (f : value -> nat -> result B)
  : result (list B) :=
  match v with
  | VArr items => mapM_from f 0 items
  | VUndefined | VNull =>
      Throw "TypeError: cannot read properties of null or undefined: map"
  | _ => Throw "TypeError: map is not a function"
  end.

(** ** [Number.prototype.toFixed] *)

(** |x| * 10^f rounded to the nearest integer, the larger one on a tie,
    for a finite non-zero double of mantissa [m] and exponent [e]. *)
Definition scaled_round (m : positive) (e : Z) (f : nat) : Z :=
  let p := 10 ^ Z.of_nat f in
  if 0 <=? e then Z.pos m * pow2 e * p
  else (2 * Z.pos m * p + pow2 (- e)) / (2 * pow2 (- e)).

(** Digits of the integer [n] with the decimal point placed [f] digits from
    the right. *)
Definition place_point (n : Z) (f : nat) : string :=
  match f with
  | O => digits n
  | _ =>
      let s := pad_left (S f) (digits n) in
      let k := (String.length s - f)%nat in
      (substring 0 k s ++ "." ++ substring k f s)%string
  end.

(** Is |m * 2^e| below 10^21? *)
Definition below_1e21 (m : positive) (e : Z) : bool :=
  if 0 <=? e then Z.pos m * pow2 e <? 10 ^ 21
  else Z.pos m <? 10 ^ 21 * pow2 (- e).

(** [x.toFixed(f)] for [0 <= f <= 100], after ECMA-262.  For a finite
    |x| < 10^21 the result is the string of fixed-point digits: the integer
    nearest to |x| * 10^f, the larger on a tie, with the point placed [f]
    digits from the right.  Otherwise the built-in returns
    [ToString(x)]; a string child and a number child print the same text,
    so in that case the number itself is returned and left to be printed. *)
Definition toFixed (x : number) (f : nat) : value :=
  match x with
  | S754_zero _ => VStr (place_point 0 f)
  | S754_finite s m e =>
      if below_1e21 m e then
        let n := scaled_round m e f in
        (* a negative value keeps its sign even when every digit is 0 *)
        VStr ((if s then "-" else "") ++ place_point n f)%string
      else VNum x
  | _ => VNum x
  end.

(** [v.toFixed(f)] on an arbitrary value: only numbers have the method. *)
Definition call_toFixed (v : value) (f : nat) : result value :=
  match v with
  | VNum x => Ok (toFixed x f)
  | VUndefined | VNull =>
      Throw "TypeError: cannot read properties of null or undefined: toFixed"
  | _ => Throw "TypeError: toFixed is not a function"
  end.

End JS.

(* ================================================================== *)
(** * File selection ([components/FileUpload.jsx]) *)
(* ================================================================== *)

(** The part of a DOM [File] the front end reads. *)
Record File : Type := mkFile {
  name : string;
  size : N;
  type : string
}.

Module Upload.

Open Scope string_scope.

(** [files[0]] of a [FileList]: [undefined] when the list is empty. *)
Definition first_file (files : list File) : option File :=
  match files with
  | [] => None
  | f :: _ => Some f
  end.

(** [file.type.startsWith('image/')] *)
Definition is_image (f : File) : bool := prefix "image/" (type f).

Section Handlers.

(** The component is parametric in the owner's state [S] and in the
    [onFileSelect] callback it is given. *)
Variable S : Type.
Variable onFileSelect : File -> S -> S.

(** Change event of the hidden file input (click-to-browse). *)
Definition handleFileChange (files : list File) (s : S) : S :=
  match first_file files with
  | Some file => onFileSelect file s
  | None => s
  end.

(** Drop event on the upload area. *)
Definition handleDrop (files : list File) (s : S) : S :=
  match first_file files with
  | Some file => if is_image file then onFileSelect file s else s
  | None => s
  end.

End Handlers.

(** The files handed to [onFileSelect] by a handler, oldest last. *)
Definition notified
    (handler : (File -> list File -> list File) -> list File -> list File -> list File)
    (files : list File) : list File :=
  handler cons files [].

End Upload.

(* ================================================================== *)
(** * The workflow controller ([App.jsx]) *)
(* ================================================================== *)

Module App.

Import JS.
Open Scope string_scope.

(** The five [useState] cells of [App]. *)
Record State : Type := mkState {
  selectedFile : option File;
  isLoading : bool;
  result : value;
  error : value;
  uploadProgress : Z
}.

(** A submission that has been posted and has not settled yet, with the
    interval handle its continuation holds. *)
Record Request : Type := mkRequest {
  body : File;
  progressInterval : nat
}.

(** The component together with the part of its environment it acts on:
    the live [setInterval] handles and the outstanding requests. *)
Record World : Type := mkWorld {
  ui : State;
  timers : list nat;
  nextTimer : nat;
  inflight : list Request
}.

Definition initial : World :=
  {| ui := {| selectedFile := None; isLoading := false; result := VNull;
              error := VNull; uploadProgress := 0 |};
     timers := []; nextTimer := 0; inflight := [] |}.

Definition with_ui (w : World) (s : State) : World :=
  {| ui := s; timers := timers w; nextTimer := nextTimer w;
     inflight := inflight w |}.

(** ** Handlers *)

Definition handleFileSelect (file : File) (w : World) : World :=
  with_ui w {| selectedFile := Some file;
               isLoading := isLoading (ui w);
               result := VNull;
               error := VNull;
               uploadProgress := uploadProgress (ui w) |}.

Definition handleReset (w : World) : World :=
  with_ui w {| selectedFile := None;
               isLoading := isLoading (ui w);
               result := VNull;
               error := VNull;
               uploadProgress := 0 |}.

(** [handleSubmit] up to its [await]: the guard, the state reset, the
    start of the progress interval and the post of the request. *)
Definition handleSubmit (w : World) : World :=
  match selectedFile (ui w) with
  | None =>
      with_ui w {| selectedFile := None;
                   isLoading := isLoading (ui w);
                   result := result (ui w);
                   error := VStr "Please select a file first.";
                   uploadProgress := uploadProgress (ui w) |}
  | Some file =>
      let id := nextTimer w in
      {| ui := {| selectedFile := Some file;
                  isLoading := true;
                  result := VNull;
                  error := VNull;
                  uploadProgress := 0 |};
         timers := id :: timers w;
         nextTimer := S id;
         inflight := inflight w ++ [ {| body := file; progressInterval := id |} ] |}
  end.

(** One firing of the progress interval:
    [setUploadProgress(prev => Math.min(prev + 10, 90))]. *)
Definition tick (w : World) : World :=
  with_ui w {| selectedFile := selectedFile (ui w);
               isLoading := isLoading (ui w);
               result := result (ui w);
               error := error (ui w);
               uploadProgress := Z.min (uploadProgress (ui w) + 10) 90 |}.

Definition clearInterval (id : nat) (ts : list nat) : list nat :=
  filter (fun t => negb (Nat.eqb t id)) ts.

Fixpoint remove_nth {A} (i : nat) (l : list A) : list A :=
  match l, i with
  | [], _ => []
  | _ :: rest, O => rest
  | a :: rest, S i' => a :: remove_nth i' rest
  end.

(** The [finally] block. *)
Definition finally (s : State) : State :=
  {| selectedFile := selectedFile s;
     isLoading := false;
     result := result s;
     error := error s;
     uploadProgress := 0 |}.

(** Continuation of [handleSubmit] when the post resolves with
    [response.data = data]. *)
Definition submit_fulfilled (r : Request) (data : value) (w : World) : World :=
  let s := ui w in
  {| ui := finally {| selectedFile := selectedFile s;
                      isLoading := isLoading s;
                      result := data;
                      error := error s;
                      uploadProgress := 100 |};
     timers := clearInterval (progressInterval r) (timers w);
     nextTimer := nextTimer w;
     inflight := inflight w |}.

(** The message the [catch] block computes from the rejection value. *)
Definition errorMessage (err : value) : JS.result value :=
  let fallback := VStr "An error occurred. Please try again." in
  bind (get err "response") (fun response =>
  if truthy response then
    bind (get response "data") (fun errorData =>
    Ok (or_else (get_opt errorData "message")
          (or_else (get_opt errorData "detail") fallback)))
  else
    bind (get err "request") (fun request =>
    if truthy request then
      Ok (VStr "Unable to connect to the server. Please check your connection.")
    else
      bind (get err "message") (fun message =>
      Ok (or_else message fallback)))).

(** Continuation of [handleSubmit] when the post rejects with [err].  When
    the [catch] block itself raises, [setError] is not reached; the
    [finally] block runs in both cases. *)
Definition submit_rejected (r : Request) (err : value) (w : World) : World :=
  let s := ui w in
  let s' :=
    match errorMessage err with
    | Ok msg => {| selectedFile := selectedFile s;
                   isLoading := isLoading s;
                   result := result s;
                   error := msg;
                   uploadProgress := uploadProgress s |}
    | Throw _ => s
    end in
  with_ui w (finally s').

(** ** Events *)

Inductive Outcome : Type :=
| Resolved (data : value)
| Rejected (err : value).

(** What can happen to the mounted component: the gestures its rendered
    controls accept, a firing of a live interval, and the settlement of an
    outstanding request. *)
Inductive Event : Type :=
| Browse (files : list File)
| Drop (files : list File)
| ClickAnalyze
| ClickRetry
| ClickRemoveFile
| ClickStartOver
| ClickProcessAnother
| Tick (id : nat)
| Settle (i : nat) (o : Outcome).

Definition has_file (s : State) : bool :=
  match selectedFile s with
  | Some _ => true
  | None => false
  end.

(** Is the control behind the event rendered and enabled?
    - the Analyze button has [disabled={!selectedFile || isLoading}];
    - [ErrorMessage] (Try Again, Start Over) is rendered under [error &&];
    - the remove button of [FileUpload] is rendered under [selectedFile ?];
    - [CarePlanDisplay] (Process Another Document) under [result &&];
    - the upload area and its file input are always rendered.
    These are the conditions [App] and [FileUpload] put on their controls.
    They bound the controls from above: a panel that React cannot mount
    (an error that is no valid child, see [Display.mounts]) takes the page
    down with it, controls included. *)
Definition enabled (w : World) (ev : Event) : bool :=
  match ev with
  | Browse _ | Drop _ => true
  | ClickAnalyze => has_file (ui w) && negb (isLoading (ui w))
  | ClickRetry | ClickStartOver => truthy (error (ui w))
  | ClickRemoveFile => has_file (ui w)
  | ClickProcessAnother => truthy (result (ui w))
  | Tick id => existsb (Nat.eqb id) (timers w)
  | Settle i _ =>
      match nth_error (inflight w) i with
      | Some _ => true
      | None => false
      end
  end.

Definition settle (i : nat) (o : Outcome) (w : World) : World :=
  match nth_error (inflight w) i with
  | None => w
  | Some r =>
      let w' := {| ui := ui w; timers := timers w; nextTimer := nextTimer w;
                   inflight := remove_nth i (inflight w) |} in
      match o with
      | Resolved data => submit_fulfilled r data w'
      | Rejected err => submit_rejected r err w'
      end
  end.

Definition react (ev : Event) (w : World) : World :=
  match ev with
  | Browse files => Upload.handleFileChange handleFileSelect files w
  | Drop files => Upload.handleDrop handleFileSelect files w
  | ClickAnalyze | ClickRetry => handleSubmit w
  | ClickRemoveFile | ClickStartOver | ClickProcessAnother => handleReset w
  | Tick _ => tick w
  | Settle i o => settle i o w
  end.

(** One step: [None] when the control is not available. *)
Definition step (w : World) (ev : Event) : option World :=
  if enabled w ev then Some (react ev w) else None.

Fixpoint run (w : World) (trace : list Event) : option World :=
  match trace with
  | [] => Some w
  | ev :: rest =>
      match step w ev with
      | Some w' => run w' rest
      | None => None
      end
  end.

Definition reachable (w : World) : Prop :=
  exists trace, run initial trace = Some w.

(** ** The workflow state of the specification *)

Inductive WorkflowState : Type :=
| Idle | DocumentSelected | Submitting | Succeeded | Failed.

(** The specification's state, read off the cells: the spinner is shown
    under [isLoading], the care plan under [result], the error card under
    [error]. *)
Definition workflow (s : State) : WorkflowState :=
  if isLoading s then Submitting
  else if truthy (result s) then Succeeded
  else if truthy (error s) then Failed
  else if has_file s then DocumentSelected
  else Idle.

(** The events of the specification's transition table. *)
Inductive TableEvent : Type :=
| SelectionChanged
| SubmitWithoutDocument
| SubmitWithDocument
| ResponseSuccess
| ResponseFailure
| ResetInvoked.

(** The event of the table a step amounts to: a gesture that hands a file
    to [handleFileSelect] is a selection change, a click on Analyze or on
    Try Again a submit with or without a document, a click on one of the
    three controls wired to [handleReset] a reset.  A gesture the upload
    area ignores and a firing of the interval are no event of the table. *)
Definition table_event (w : World) (ev : Event) : option TableEvent :=
  match ev with
  | Browse files =>
      match Upload.first_file files with
      | Some _ => Some SelectionChanged
      | None => None
      end
  | Drop files =>
      match Upload.first_file files with
      | Some file => if Upload.is_image file then Some SelectionChanged else None
      | None => None
      end
  | ClickAnalyze | ClickRetry =>
      Some (if has_file (ui w) then SubmitWithDocument else SubmitWithoutDocument)
  | ClickRemoveFile | ClickStartOver | ClickProcessAnother => Some ResetInvoked
  | Tick _ => None
  | Settle _ (Resolved _) => Some ResponseSuccess
  | Settle _ (Rejected _) => Some ResponseFailure
  end.

(** A row of the table: source state, event, target state. *)
Definition Row : Type := (WorkflowState * TableEvent * WorkflowState)%type.

(** The row taken by the event [ev] delivered after the events of [trace],
    when the component accepts them all. *)
Definition taken (trace : list Event) (ev : Event) : option Row :=
  match run initial trace with
  | Some w =>
      match step w ev, table_event w ev with
      | Some w', Some e => Some (workflow (ui w), e, workflow (ui w'))
      | _, _ => None
      end
  | None => None
  end.

(** ** The panels below the upload section *)

(** The three conditional blocks of [App]'s return:
    [isLoading && <LoadingSpinner progress message />],
    [error && <ErrorMessage message />] and
    [result && <CarePlanDisplay data />]. *)
Inductive Panel : Type :=
| LoadingSpinner (progress : Z) (message : string)
| ErrorMessage (message : value)
| CarePlanDisplay (data : value).

Definition panels (s : State) : list Panel :=
  (if isLoading s
   then [LoadingSpinner (uploadProgress s) "Processing your document with AI..."]
   else [])
  ++ (if truthy (error s) then [ErrorMessage (error s)] else [])
  ++ (if truthy (result s) then [CarePlanDisplay (result s)] else []).

(** The label of the Analyze button. *)
Definition analyzeLabel (s : State) : string :=
  if isLoading s then "Analyzing Document..." else "Analyze Document".

(** ** Counting along a trace *)

(** The settlements by rejection among the events of a trace. *)
Fixpoint rejections (trace : list Event) : nat :=
  match trace with
  | [] => 0
  | Settle _ (Rejected _) :: rest => S (rejections rest)
  | _ :: rest => rejections rest
  end.

Definition loading_count (w : World) : nat :=
  if isLoading (ui w) then 1 else 0.

(** ** The invariant of the interval handles and of the progress cell *)

(** Handles are distinct and were all issued; every outstanding request
    holds a live handle; the progress cell is a multiple of ten between 0
    and 90. *)
Record HandleInv (w : World) : Prop := {
  inv_distinct : NoDup (timers w);
  inv_issued : Forall (fun t => t < nextTimer w)%nat (timers w);
  inv_held : Forall (fun r => In (progressInterval r) (timers w)) (inflight w);
  inv_progress :
    (0 <= uploadProgress (ui w) <= 90)%Z
    /\ (uploadProgress (ui w) mod 10 = 0)%Z
}.

(** ** The invariant of the reachable states *)

(** While loading, both outcome cells are empty and one request is
    outstanding; otherwise none is; and never are both outcome cells set. *)
Record Inv (w : World) : Prop := {
  inv_loading :
    isLoading (ui w) = true ->
    result (ui w) = VNull /\ error (ui w) = VNull /\ List.length (inflight w) = 1%nat;
  inv_settled : isLoading (ui w) = false -> inflight w = [];
  inv_exclusive : result (ui w) = VNull \/ error (ui w) = VNull
}.

End App.

(* ================================================================== *)
(** * Care-plan rendering ([components/CarePlanDisplay.jsx]) *)
(* ================================================================== *)

Module Display.

Import JS.
Open Scope string_scope.

Notation "x <- e ;; k" := (bind e (fun x => k))
  (at level 61, e at next level, right associativity).

(** ** Rendered output *)

(** What a JSX expression evaluates to: literal text, an embedded
    expression [{v}], an array of children (the result of a [map]), or an
    element.  A [className] is kept as the list of the pieces of its
    template literal; [key] props are not part of the output. *)
Inductive node : Type :=
| Text (s : string)
| Expr (v : value)
| Items (children : list node)
| Elem (tag : string) (className : list value)
       (attrs : list (string * value)) (children : list node).

(** [<tag className="cls">children</tag>] *)
Definition el (tag cls : string) (children : list node) : node :=
  Elem tag [VStr cls] [] children.

(** [<tag>children</tag>] *)
Definition el0 (tag : string) (children : list node) : node :=
  Elem tag [] [] children.

(** [{c && n}] *)
Definition and_then (c : value) (n : node) : node :=
  if truthy c then n else Expr c.

(** [{f()}] for a renderer that returns an element or [null]. *)
Definition child (o : option node) : node :=
  match o with
  | Some n => n
  | None => Expr VNull
  end.

(** ** Section renderers *)

(** Each renderer reads [data.care_plan] (or [data.agent_results]) once for
    its guard and once more for its body; the two reads give the same value,
    which is bound once here. *)

Definition medicationCard (med : value) (index : nat) : result node :=
  name <- get med "name" ;;
  dosage <- get med "dosage" ;;
  frequency <- get med "frequency" ;;
  instructions <- get med "instructions" ;;
  quantity <- get med "quantity" ;;
  refills <- get med "refills" ;;
  Ok (el "div" "medication-card"
        [ el "div" "medication-header"
            [ el0 "h4" [Expr name];
              el "span" "dosage" [Expr dosage] ];
          el "div" "medication-details"
            [ el0 "p" [el0 "strong" [Text "Frequency:"]; Text " "; Expr frequency];
              el0 "p" [el0 "strong" [Text "Instructions:"]; Text " "; Expr instructions];
              and_then quantity
                (el0 "p" [el0 "strong" [Text "Quantity:"]; Text " ";
                          Expr quantity; Text " tablets"]);
              and_then refills
                (el0 "p" [el0 "strong" [Text "Refills:"]; Text " ";
                          Expr refills; Text " remaining"]) ] ]).

Definition renderMedications (data : value) : result (option node) :=
  care_plan <- get data "care_plan" ;;
  if negb (truthy (get_opt (get_opt care_plan "medications") "length"))
  then Ok None
  else
    medications <- get care_plan "medications" ;;
    cards <- array_map medications medicationCard ;;
    Ok (Some (el "div" "medications-section"
                [ el0 "h3" [Text "💊 Your Medications"]; Items cards ])).

Definition actionItem (item : value) (index : nat) : result node :=
  priority <- get item "priority" ;;
  title <- get item "title" ;;
  description <- get item "description" ;;
  timeframe <- get item "timeframe" ;;
  Ok (Elem "div" [VStr "action-item "; priority] []
        [ el "div" "action-item-header"
            [ el0 "h4" [Expr title];
              Elem "span" [VStr "priority-badge "; priority] [] [Expr priority] ];
          el "p" "action-description" [Expr description];
          el "p" "action-timeframe"
            [el0 "strong" [Text "When:"]; Text " "; Expr timeframe] ]).

Definition renderActionItems (data : value) : result (option node) :=
  care_plan <- get data "care_plan" ;;
  if negb (truthy (get_opt (get_opt care_plan "action_items") "length"))
  then Ok None
  else
    action_items <- get care_plan "action_items" ;;
    cards <- array_map action_items actionItem ;;
    Ok (Some (el "div" "action-items-section"
                [ el0 "h3" [Text "✅ Your Action Plan"]; Items cards ])).

Definition termCard (term : value) (index : nat) : result node :=
  term_name <- get term "term" ;;
  explanation <- get term "explanation" ;;
  importance <- get term "importance" ;;
  Ok (el "div" "term-card"
        [ el0 "h4" [Expr term_name];
          el "p" "term-explanation" [Expr explanation];
          el "p" "term-importance"
            [el0 "strong" [Text "Why this matters:"]; Text " "; Expr importance] ]).

Definition renderSimplifiedTerms (data : value) : result (option node) :=
  care_plan <- get data "care_plan" ;;
  if negb (truthy (get_opt (get_opt care_plan "simplified_terms") "length"))
  then Ok None
  else
    simplified_terms <- get care_plan "simplified_terms" ;;
    cards <- array_map simplified_terms termCard ;;
    Ok (Some (el "div" "terms-section"
                [ el0 "h3" [Text "📚 Understanding Your Health"]; Items cards ])).

(** [<li className=cls>{item}</li>], the callback of the three plain
    lists. *)
Definition listItem (cls : string) (item : value) (index : nat) : result node :=
  Ok (el "li" cls [Expr item]).

Definition renderLifestyleTips (data : value) : result (option node) :=
  care_plan <- get data "care_plan" ;;
  if negb (truthy (get_opt (get_opt care_plan "lifestyle_tips") "length"))
  then Ok None
  else
    lifestyle_tips <- get care_plan "lifestyle_tips" ;;
    items <- array_map lifestyle_tips (listItem "tip-item") ;;
    Ok (Some (el "div" "lifestyle-section"
                [ el0 "h3" [Text "🌱 Lifestyle Tips"];
                  el "ul" "tips-list" [Items items] ])).

Definition renderFollowUp (data : value) : result (option node) :=
  care_plan <- get data "care_plan" ;;
  if negb (truthy (get_opt (get_opt care_plan "follow_up_instructions") "length"))
  then Ok None
  else
    follow_up <- get care_plan "follow_up_instructions" ;;
    items <- array_map follow_up (listItem "followup-item") ;;
    Ok (Some (el "div" "followup-section"
                [ el0 "h3" [Text "📅 Follow-up Instructions"];
                  el "ul" "followup-list" [Items items] ])).

Definition renderEmergencyContacts (data : value) : result (option node) :=
  care_plan <- get data "care_plan" ;;
  if negb (truthy (get_opt (get_opt care_plan "emergency_contacts") "length"))
  then Ok None
  else
    contacts <- get care_plan "emergency_contacts" ;;
    items <- array_map contacts (listItem "contact-item") ;;
    Ok (Some (el "div" "emergency-section"
                [ el0 "h3" [Text "🚨 Emergency Contacts"];
                  el "ul" "contacts-list" [Items items] ])).

(** The [<p>] announcing a generic alternative. *)
Definition genericLine (generic_name : value) : node :=
  el0 "p" [el0 "strong" [Text "Generic Available:"]; Text " Yes - ";
           Expr generic_name].

Definition savingsCard (saving : value) (index : nat) : result node :=
  medication <- get saving "medication" ;;
  monthly_savings <- get saving "monthly_savings" ;;
  generic_available <- get saving "generic_available" ;;
  generic <- (if truthy generic_available
              then generic_name <- get saving "generic_name" ;;
                   Ok (genericLine generic_name)
              else Ok (Expr generic_available)) ;;
  savings_tips <- get saving "savings_tips" ;;
  tips <- array_map savings_tips
            (fun tip tipIndex => Ok (el0 "li" [Expr tip])) ;;
  discount_programs <- get saving "discount_programs" ;;
  programs <- array_map discount_programs
                (fun program programIndex =>
                   Ok (el "span" "program-tag" [Expr program])) ;;
  Ok (el "div" "savings-card"
        [ el "div" "savings-header"
            [ el0 "h4" [Expr medication];
              el "span" "savings-amount"
                [Text "Save $"; Expr monthly_savings; Text "/month"] ];
          el "div" "savings-details"
            [ generic;
              el "div" "savings-tips"
                [ el0 "h5" [Text "Money-Saving Tips:"];
                  el0 "ul" [Items tips] ];
              el "div" "discount-programs"
                [ el0 "h5" [Text "Discount Programs:"];
                  el "div" "program-tags" [Items programs] ] ] ]).

(** [<h4>Potential Annual Savings: ${totalSavings.toFixed(2)}</h4>] *)
Definition savingsTotal (totalSavings : value) : result node :=
  amount <- call_toFixed totalSavings 2 ;;
  Ok (el0 "h4" [Text "Potential Annual Savings: $"; Expr amount]).

Definition renderCostSavings (data : value) : result (option node) :=
  agent_results <- get data "agent_results" ;;
  if negb (truthy (get_opt (get_opt (get_opt (get_opt agent_results
                     "resource") "result") "cost_savings") "length"))
  then Ok None
  else
    resource <- get agent_results "resource" ;;
    res <- get resource "result" ;;
    costSavings <- get res "cost_savings" ;;
    total <- get res "total_potential_savings" ;;
    let totalSavings := or_else total (VNum (S754_zero false)) in
    heading <- savingsTotal totalSavings ;;
    cards <- array_map costSavings savingsCard ;;
    Ok (Some (el "div" "cost-savings-section"
                [ el0 "h3" [Text "💰 Cost Savings Opportunities"];
                  el "div" "savings-summary" [el "div" "savings-total" [heading]];
                  Items cards ])).

Definition resourceCard (resource : value) (index : nat) : result node :=
  rname <- get resource "name" ;;
  description <- get resource "description" ;;
  url <- get resource "url" ;;
  phone <- get resource "phone" ;;
  rtype <- get resource "type" ;;
  Ok (el "div" "resource-card"
        [ el0 "h4" [Expr rname];
          el "p" "resource-description" [Expr description];
          el "div" "resource-contact"
            [ and_then url
                (Elem "a" [VStr "resource-link"]
                   [("href", url); ("target", VStr "_blank");
                    ("rel", VStr "noopener noreferrer")]
                   [Text "Visit Website"]);
              and_then phone (el "span" "resource-phone" [Expr phone]) ];
          el "span" "resource-type" [Expr rtype] ]).

Definition renderSupportResources (data : value) : result (option node) :=
  agent_results <- get data "agent_results" ;;
  if negb (truthy (get_opt (get_opt (get_opt (get_opt agent_results
                     "resource") "result") "support_resources") "length"))
  then Ok None
  else
    resource <- get agent_results "resource" ;;
    res <- get resource "result" ;;
    resources <- get res "support_resources" ;;
    cards <- array_map resources resourceCard ;;
    Ok (Some (el "div" "support-resources-section"
                [ el0 "h3" [Text "🆘 Support Resources"];
                  el "div" "resources-grid" [Items cards] ])).

(** The body shared by the six care-plan renderers above, each of which is
    an instance of it: the guard on the length of [data.care_plan?.key], the
    [map] over the collection, the root [div]. *)
Definition guarded_section (B : Type) (key cls : string)
    (f : value -> nat -> result B) (build : list B -> list node)
    (data : value) : result (option node) :=
  bind (get data "care_plan") (fun care_plan =>
  if negb (truthy (get_opt (get_opt care_plan key) "length"))
  then Ok None
  else
    bind (get care_plan key) (fun collection =>
    bind (array_map collection f) (fun items =>
    Ok (Some (el "div" cls (build items)))))).

(** ** The header line and the tab body *)

(** ToNumber on the left operand of [*], for the operands it is modelled
    on: numbers, booleans, [null] and [undefined].  Strings, arrays and
    objects go through the string-to-number grammar and are left out. *)
Definition ToNumber (v : value) : option number :=
  match v with
  | VNum x => Some x
  | VBool true => Some (of_Z 1)
  | VBool false | VNull => Some (S754_zero false)
  | VUndefined => Some S754_nan
  | VStr _ | VArr _ | VObj _ => None
  end.

(** [Math.round((data.confidence_score || 0) * 100)]: [None] only where
    [ToNumber] is not modelled. *)
Definition confidencePercent (data : value) : result (option number) :=
  score <- get data "confidence_score" ;;
  Ok (match ToNumber (or_else score (VNum (S754_zero false))) with
      | Some x => Some (Math_round (mul x (of_Z 100)))
      | None => None
      end).

(** [<span className="confidence-score">Confidence: {...}%</span>] *)
Definition confidenceScore (percent : number) : node :=
  el "span" "confidence-score"
    [Text "Confidence: "; Expr (VNum percent); Text "%"].

(** [data.processing_time_seconds?.toFixed(1)] *)
Definition processingSeconds (data : value) : result value :=
  seconds <- get data "processing_time_seconds" ;;
  if nullish seconds then Ok VUndefined else call_toFixed seconds 1.

(** [<span className="processing-time">Processed in {...}s</span>] *)
Definition processingTime (data : value) : result node :=
  seconds <- processingSeconds data ;;
  Ok (el "span" "processing-time"
        [Text "Processed in "; Expr seconds; Text "s"]).

(** [{activeTab === name && (<div className=cls>...</div>)}] *)
Definition tabPane (activeTab name cls : string)
    (sections : result (list node)) : result node :=
  if String.eqb activeTab name
  then children <- sections ;; Ok (el "div" cls children)
  else Ok (Expr (VBool false)).

(** [<div className="tab-content">...</div>] *)
Definition tabContent (activeTab : string) (data : value) : result node :=
  overview <- tabPane activeTab "overview" "overview-tab"
    (m <- renderMedications data ;;
     a <- renderActionItems data ;;
     l <- renderLifestyleTips data ;;
     Ok [child m; child a; child l]) ;;
  medications <- tabPane activeTab "medications" "medications-tab"
    (m <- renderMedications data ;;
     Ok [child m]) ;;
  actions <- tabPane activeTab "actions" "actions-tab"
    (a <- renderActionItems data ;;
     f <- renderFollowUp data ;;
     e <- renderEmergencyContacts data ;;
     Ok [child a; child f; child e]) ;;
  education <- tabPane activeTab "education" "education-tab"
    (t <- renderSimplifiedTerms data ;;
     l <- renderLifestyleTips data ;;
     Ok [child t; child l]) ;;
  resources <- tabPane activeTab "resources" "resources-tab"
    (c <- renderCostSavings data ;;
     s <- renderSupportResources data ;;
     Ok [child c; child s]) ;;
  Ok (el "div" "tab-content"
        [overview; medications; actions; education; resources]).

(** ** [formatActionPlan] *)

(** Strings are byte strings holding UTF-8.  The four patterns of
    [formatActionPlan] only name ASCII characters, and [.] excludes the four
    line terminators, two of which take three bytes; every other character
    is copied, byte by byte here and unit by unit in JavaScript. *)

Definition LF : ascii := "010"%char.
Definition CR : ascii := "013"%char.

(** U+2028 and U+2029. *)
Definition LS : string := String "226"%char (String "128"%char (String "168"%char "")).
Definition PS : string := String "226"%char (String "128"%char (String "169"%char "")).

(** Does [s] start with a line terminator, which [.] does not match? *)
Definition at_line_terminator (s : string) : bool :=
  prefix (String LF "") s || prefix (String CR "") s || prefix LS s || prefix PS s.

Fixpoint skip (n : nat) (s : string) : string :=
  match n, s with
  | O, _ => s
  | S n', String _ rest => skip n' rest
  | S _, EmptyString => EmptyString
  end.

(** [(.*?)delim] matched at the start of [s]: the shortest run of characters
    that holds no line terminator and is followed by [delim]; the run, and
    what follows [delim]. *)
Fixpoint lazy_until (delim : string) (s : string) : option (string * string) :=
  if prefix delim s then Some ("", skip (String.length delim) s)
  else if at_line_terminator s then None
  else
    match s with
    | EmptyString => None
    | String c rest =>
        match lazy_until delim rest with
        | Some (run, after) => Some (String c run, after)
        | None => None
        end
    end.

(** [s.replace(/delim(.*?)delim/g, opening + '$1' + closing)] for a literal
    [delim]: from the left, a match is tried at each position; a match is
    replaced and the scan goes on after it, a position without a match is
    copied.  The fuel bounds the number of positions visited. *)
Fixpoint replace_delimited (fuel : nat) (delim opening closing : string)
    (s : string) : string :=
  match fuel with
  | O => s
  | S fuel' =>
      match s with
      | EmptyString => EmptyString
      | String c rest =>
          if prefix delim s then
            match lazy_until delim (skip (String.length delim) s) with
            | Some (run, after) =>
                opening ++ run ++ closing
                ++ replace_delimited fuel' delim opening closing after
            | None => String c (replace_delimited fuel' delim opening closing rest)
            end
          else String c (replace_delimited fuel' delim opening closing rest)
      end
  end.

(** [.replace(/\*\*(.*?)\*\*/g, '<strong>$1</strong>')] *)
Definition bold (s : string) : string :=
  replace_delimited (String.length s) "**" "<strong>" "</strong>" s.

(** [.replace(/\*(.*?)\*/g, '<em>$1</em>')] *)
Definition italic (s : string) : string :=
  replace_delimited (String.length s) "*" "<em>" "</em>" s.

(** [.replace(/\n\n/g, '</p><p>')] *)
Fixpoint paragraphs (s : string) : string :=
  match s with
  | String c1 (String c2 rest as tail) =>
      if Ascii.eqb c1 LF && Ascii.eqb c2 LF
      then "</p><p>" ++ paragraphs rest
      else String c1 (paragraphs tail)
  | _ => s
  end.

(** [.replace(/\n/g, '<br />')] *)
Fixpoint breaks (s : string) : string :=
  match s with
  | EmptyString => EmptyString
  | String c rest =>
      if Ascii.eqb c LF then "<br />" ++ breaks rest else String c (breaks rest)
  end.

(** [formatActionPlan]: only a string has [replace]. *)
Definition formatActionPlan (actionPlan : value) : result string :=
  match actionPlan with
  | VStr s => Ok (breaks (paragraphs (italic (bold s))))
  | VUndefined | VNull =>
      Throw "TypeError: cannot read properties of null or undefined: replace"
  | _ => Throw "TypeError: replace is not a function"
  end.

(** ** The tab bar *)

(** [<button className={`tab ${activeTab === name ? 'active' : ''}`}
             onClick={() => setActiveTab(name)}>label</button>];
    the [onClick] attribute records the argument of [setActiveTab]. *)
Definition tabButton (activeTab name label : string) : node :=
  Elem "button"
    [VStr "tab "; VStr (if String.eqb activeTab name then "active" else "")]
    [("onClick", VStr name)]
    [Text label].

(** [<div className="tabs">...</div>] *)
Definition tabs (activeTab : string) : node :=
  el "div" "tabs"
    [ tabButton activeTab "overview" "Overview";
      tabButton activeTab "medications" "Medications";
      tabButton activeTab "actions" "Action Plan";
      tabButton activeTab "education" "Health Education";
      tabButton activeTab "resources" "Resources & Savings" ].

(** ** What the browser shows *)

(** Text of a number child, on integral doubles of magnitude below 2^53
    and on the three special values; other doubles need the
    shortest-round-trip digit generation and are left out. *)
Definition number_text (x : number) : option string :=
  match x with
  | S754_nan => Some "NaN"
  | S754_infinity s => Some (if s then "-Infinity" else "Infinity")
  | S754_zero _ => Some "0"
  | S754_finite s m e =>
      let sign := if s then "-" else "" in
      if (0 <=? e)%Z then
        if (Z.pos m * pow2 e <? pow2 53)%Z
        then Some (sign ++ digits (Z.pos m * pow2 e))
        else None
      else
        if (Z.pos m mod pow2 (- e) =? 0)%Z
        then Some (sign ++ digits (Z.pos m / pow2 (- e)))
        else None
  end.

(** Text React produces for an embedded value: nothing for [null],
    [undefined] and booleans, the elements in order for an array; an
    object is not a valid child. *)
Fixpoint value_text (v : value) : option string :=
  match v with
  | VUndefined | VNull | VBool _ => Some ""
  | VNum x => number_text x
  | VStr s => Some s
  | VArr items =>
      (fix all (l : list value) : option string :=
         match l with
         | [] => Some ""
         | v' :: rest =>
             match value_text v', all rest with
             | Some a, Some b => Some (a ++ b)
             | _, _ => None
             end
         end) items
  | VObj _ => None
  end.

(** The DOM [textContent] of a rendered node. *)
Fixpoint textContent (n : node) : option string :=
  let all := fix all (l : list node) : option string :=
    match l with
    | [] => Some ""
    | n' :: rest =>
        match textContent n', all rest with
        | Some a, Some b => Some (a ++ b)
        | _, _ => None
        end
    end in
  match n with
  | Text s => Some s
  | Expr v => value_text v
  | Items children => all children
  | Elem _ _ _ children => all children
  end.

(** Can React mount the value as a child?  A plain object cannot be one
    ("Objects are not valid as a React child"), nor can an array that holds
    one; everything else can. *)
Fixpoint valid_child (v : value) : bool :=
  match v with
  | VObj _ => false
  | VArr items =>
      (fix all (l : list value) : bool :=
         match l with
         | [] => true
         | v' :: rest => valid_child v' && all rest
         end) items
  | _ => true
  end.

(** Can React mount the tree?  It can when every embedded value is a valid
    child. *)
Fixpoint mounts (n : node) : bool :=
  let all := fix all (l : list node) : bool :=
    match l with
    | [] => true
    | n' :: rest => mounts n' && all rest
    end in
  match n with
  | Text _ => true
  | Expr v => valid_child v
  | Items children => all children
  | Elem _ _ _ children => all children
  end.

(** ** The error card ([components/ErrorMessage.jsx]) *)

(** The [onClick] attributes record which of the two callbacks the button
    is wired to. *)
Definition ErrorMessage (message : value) : node :=
  el "div" "error-container"
    [ el "div" "error-card"
        [ el "div" "error-icon" [Text "⚠️"];
          el "h3" "error-title" [Text "Something went wrong"];
          el "p" "error-message" [Expr message];
          el "div" "error-actions"
            [ Elem "button" [VStr "retry-button"] [("onClick", VStr "onRetry")]
                [Text "Try Again"];
              Elem "button" [VStr "reset-button"] [("onClick", VStr "onReset")]
                [Text "Start Over"] ];
          el "div" "error-help"
            [ el0 "h4" [Text "Common solutions:"];
              el0 "ul"
                [ el0 "li" [Text "Make sure your file is a clear image (JPG, PNG, etc.)"];
                  el0 "li" [Text "Check that the file size is under 10MB"];
                  el0 "li" [Text "Ensure the text in the image is readable"];
                  el0 "li" [Text "Try a different image if the current one is blurry"] ] ] ] ].

End Display.

(* ================================================================== *)
(** * The specification's wording, for comparison with the code *)
(* ================================================================== *)

Module Spec.

Import JS.
Open Scope string_scope.

Definition fallback : value := VStr "An error occurred. Please try again.".

Definition unreachable_server : value :=
  VStr "Unable to connect to the server. Please check your connection.".

(** The text of a structured error body: its message, else its detail. *)
Definition structured_text (err : value) : value :=
  let body := get_opt (get_opt err "response") "data" in
  or_else (get_opt body "message") (get_opt body "detail").

(** The failure classification as the specification orders it, first match
    wins: (1) a response with a message or detail text gives that text;
    (2) a request that got no response gives the connection message;
    (3) anything else gives the failure's own message when present, and a
    generic fallback otherwise. *)
Definition displayMessage (err : value) : value :=
  if truthy (get_opt err "response") && truthy (structured_text err)
  then structured_text err
  else if negb (truthy (get_opt err "response")) && truthy (get_opt err "request")
  then unreachable_server
  else or_else (get_opt err "message") fallback.

(** The transition table of the workflow controller as the specification
    gives it, one row for each source state it names; "any" stands for the
    five states. *)
Definition table : list App.Row :=
  [ (App.Idle, App.SelectionChanged, App.DocumentSelected);
    (App.Failed, App.SelectionChanged, App.DocumentSelected);
    (App.DocumentSelected, App.SubmitWithoutDocument, App.DocumentSelected);
    (App.Failed, App.SubmitWithoutDocument, App.Failed);
    (App.DocumentSelected, App.SubmitWithDocument, App.Submitting);
    (App.Failed, App.SubmitWithDocument, App.Submitting);
    (App.Submitting, App.ResponseSuccess, App.Succeeded);
    (App.Submitting, App.ResponseFailure, App.Failed);
    (App.Idle, App.ResetInvoked, App.Idle);
    (App.DocumentSelected, App.ResetInvoked, App.Idle);
    (App.Submitting, App.ResetInvoked, App.Idle);
    (App.Succeeded, App.ResetInvoked, App.Idle);
    (App.Failed, App.ResetInvoked, App.Idle) ].

(** The transitions the component has beside those of the table:
    - a selection is accepted in every state, and keeps a submission that
      is outstanding;
    - Analyze stays enabled beside a shown care plan;
    - a response whose data is falsy, and a rejection without a value,
      leave neither a care plan nor an error;
    - the remove button does not end a submission that is outstanding. *)
Definition added : list App.Row :=
  [ (App.DocumentSelected, App.SelectionChanged, App.DocumentSelected);
    (App.Succeeded, App.SelectionChanged, App.DocumentSelected);
    (App.Submitting, App.SelectionChanged, App.Submitting);
    (App.Succeeded, App.SubmitWithDocument, App.Submitting);
    (App.Submitting, App.ResponseSuccess, App.DocumentSelected);
    (App.Submitting, App.ResponseSuccess, App.Idle);
    (App.Submitting, App.ResponseFailure, App.DocumentSelected);
    (App.Submitting, App.ResponseFailure, App.Idle);
    (App.Submitting, App.ResetInvoked, App.Submitting) ].

(** The rows of the table the component never takes: a state with a
    selected document has no submit without one, the idle state shows no
    reset control, and a reset does not leave the submitting state. *)
Definition never_taken : list App.Row :=
  [ (App.DocumentSelected, App.SubmitWithoutDocument, App.DocumentSelected);
    (App.Idle, App.ResetInvoked, App.Idle);
    (App.Submitting, App.ResetInvoked, App.Idle) ].

(** The eight sections of a care plan. *)
Inductive PlanSection : Type :=
| Medications
| ActionItems
| SimplifiedTerms
| LifestyleTips
| FollowUpInstructions
| EmergencyContacts
| CostSavings
| SupportResources.

(** The five tabs. *)
Inductive Tab : Type :=
| TabOverview
| TabMedications
| TabActions
| TabEducation
| TabResources.

(** The value [setActiveTab] is called with by the tab's button. *)
Definition tab_name (t : Tab) : string :=
  match t with
  | TabOverview => "overview"
  | TabMedications => "medications"
  | TabActions => "actions"
  | TabEducation => "education"
  | TabResources => "resources"
  end.

(** The declared composition of each tab, in order. *)
Definition composition (t : Tab) : list PlanSection :=
  match t with
  | TabOverview => [Medications; ActionItems; LifestyleTips]
  | TabMedications => [Medications]
  | TabActions => [ActionItems; FollowUpInstructions; EmergencyContacts]
  | TabEducation => [SimplifiedTerms; LifestyleTips]
  | TabResources => [CostSavings; SupportResources]
  end.

Definition in_care_plan (data : value) (key : string) : value :=
  get_opt (get_opt data "care_plan") key.

Definition in_resource_result (data : value) (key : string) : value :=
  get_opt (get_opt (get_opt (get_opt data "agent_results") "resource") "result") key.

(** The collection behind a section, read tolerantly. *)
Definition backing (s : PlanSection) (data : value) : value :=
  match s with
  | Medications => in_care_plan data "medications"
  | ActionItems => in_care_plan data "action_items"
  | SimplifiedTerms => in_care_plan data "simplified_terms"
  | LifestyleTips => in_care_plan data "lifestyle_tips"
  | FollowUpInstructions => in_care_plan data "follow_up_instructions"
  | EmergencyContacts => in_care_plan data "emergency_contacts"
  | CostSavings => in_resource_result data "cost_savings"
  | SupportResources => in_resource_result data "support_resources"
  end.

(** A collection with at least one entry. *)
Definition populated (v : value) : bool :=
  match v with
  | VArr (_ :: _) => true
  | _ => false
  end.


(** The renderer of each section. *)
Definition render (s : PlanSection) : value -> result (option Display.node) :=
  match s with
  | Medications => Display.renderMedications
  | ActionItems => Display.renderActionItems
  | SimplifiedTerms => Display.renderSimplifiedTerms
  | LifestyleTips => Display.renderLifestyleTips
  | FollowUpInstructions => Display.renderFollowUp
  | EmergencyContacts => Display.renderEmergencyContacts
  | CostSavings => Display.renderCostSavings
  | SupportResources => Display.renderSupportResources
  end.

(** The class of the root element of each section. *)
Definition section_class (s : PlanSection) : string :=
  match s with
  | Medications => "medications-section"
  | ActionItems => "action-items-section"
  | SimplifiedTerms => "terms-section"
  | LifestyleTips => "lifestyle-section"
  | FollowUpInstructions => "followup-section"
  | EmergencyContacts => "emergency-section"
  | CostSavings => "cost-savings-section"
  | SupportResources => "support-resources-section"
  end.

Definition all_sections : list PlanSection :=
  [Medications; ActionItems; SimplifiedTerms; LifestyleTips;
   FollowUpInstructions; EmergencyContacts; CostSavings; SupportResources].

Definition section_of_class (c : string) : option PlanSection :=
  find (fun s => String.eqb (section_class s) c) all_sections.

(** The section a rendered child is the root of, if any. *)
Definition section_of_node (n : Display.node) : option PlanSection :=
  match n with
  | Display.Elem _ [VStr c] _ _ => section_of_class c
  | _ => None
  end.

Fixpoint sections_among (children : list Display.node) : list PlanSection :=
  match children with
  | [] => []
  | n :: rest =>
      match section_of_node n with
      | Some s => s :: sections_among rest
      | None => sections_among rest
      end
  end.

(** The sections present in a rendered tab body: those among the children
    of its panes. *)
Definition shown (tab_content : Display.node) : list PlanSection :=
  match tab_content with
  | Display.Elem _ _ _ panes =>
      flat_map (fun pane =>
                  match pane with
                  | Display.Elem _ _ _ children => sections_among children
                  | _ => []
                  end) panes
  | _ => []
  end.

(** For each button of a tab bar, whether it carries the [active] class. *)
Definition button_flags (bar : Display.node) : list bool :=
  match bar with
  | Display.Elem _ _ _ buttons =>
      map (fun b =>
             match b with
             | Display.Elem _ [_; VStr "active"] _ _ => true
             | _ => false
             end) buttons
  | _ => []
  end.

(** For each button of a tab bar, the tab its click selects. *)
Definition button_targets (bar : Display.node) : list value :=
  match bar with
  | Display.Elem _ _ _ buttons =>
      map (fun b =>
             match b with
             | Display.Elem _ _ attrs _ => lookup attrs "onClick"
             | _ => VUndefined
             end) buttons
  | _ => []
  end.

(** For each slot of a tab body, whether a pane is rendered in it. *)
Definition pane_flags (tab_content : Display.node) : list bool :=
  match tab_content with
  | Display.Elem _ _ _ panes =>
      map (fun pane =>
             match pane with
             | Display.Elem _ _ _ _ => true
             | _ => false
             end) panes
  | _ => []
  end.

(** Does the character [c] occur in [s]? *)
Fixpoint occurs (c : ascii) (s : string) : bool :=
  match s with
  | EmptyString => false
  | String x rest => Ascii.eqb x c || occurs c rest
  end.

(** Is every character of [s] a decimal digit? *)
Fixpoint only_digits (s : string) : bool :=
  match s with
  | EmptyString => true
  | String c rest =>
      Nat.leb 48 (nat_of_ascii c) && Nat.leb (nat_of_ascii c) 57
      && only_digits rest
  end.

(** Does [s] hold a line terminator ([\n], [\r], U+2028, U+2029)? *)
Fixpoint has_line_terminator (s : string) : bool :=
  Display.at_line_terminator s
  || match s with
     | EmptyString => false
     | String _ rest => has_line_terminator rest
     end.

(** Does [s] hold two asterisks in a row? *)
Fixpoint has_double_star (s : string) : bool :=
  prefix "**" s
  || match s with
     | EmptyString => false
     | String _ rest => has_double_star rest
     end.

Definition all_tabs : list Tab :=
  [TabOverview; TabMedications; TabActions; TabEducation; TabResources].

Definition is_array (v : value) : bool :=
  match v with
  | VArr _ => true
  | _ => false
  end.

Definition is_number (v : value) : bool :=
  match v with
  | VNum _ => true
  | _ => false
  end.

(** The mapped entries of a rendered section: its root holds a heading
    followed by the entries, directly or inside one wrapping element. *)
Definition cards_of (section : Display.node) : list Display.node :=
  match section with
  | Display.Elem _ _ _ [_; Display.Items cards] => cards
  | Display.Elem _ _ _ [_; Display.Elem _ _ _ [Display.Items cards]] => cards
  | _ => []
  end.

(** Does the literal text [t] occur in the rendered tree? *)
Fixpoint has_text (t : string) (n : Display.node) : bool :=
  match n with
  | Display.Text s => String.eqb s t
  | Display.Expr _ => false
  | Display.Items children => existsb (has_text t) children
  | Display.Elem _ _ _ children => existsb (has_text t) children
  end.

(** Does a savings card carry the line announcing a generic? *)
Definition announces_generic (card : Display.node) : bool :=
  has_text "Generic Available:" card.

End Spec.

(* ================================================================== *)
(** * Sample data *)
(* ================================================================== *)

Module Samples.

Import JS.
Open Scope string_scope.

Definition scan1 : File :=
  {| name := "discharge.jpg"; size := 204800; type := "image/jpeg" |}.

Definition scan2 : File :=
  {| name := "prescription.png"; size := 51200; type := "image/png" |}.

Definition notes : File :=
  {| name := "notes.pdf"; size := 1024; type := "application/pdf" |}.

(** The state after choosing [scan1] and pressing Analyze. *)
Definition submitting_scan1 : App.World :=
  {| App.ui := {| App.selectedFile := Some scan1; App.isLoading := true;
                  App.result := VNull; App.error := VNull;
                  App.uploadProgress := 0 |};
     App.timers := [0%nat]; App.nextTimer := 1;
     App.inflight := [ {| App.body := scan1; App.progressInterval := 0 |} ] |}.

(** Choosing [scan1], pressing Analyze and letting the interval fire
    twelve times. *)
Definition twelve_ticks : list App.Event :=
  [App.Browse [scan1]; App.ClickAnalyze;
   App.Tick 0; App.Tick 0; App.Tick 0; App.Tick 0; App.Tick 0; App.Tick 0;
   App.Tick 0; App.Tick 0; App.Tick 0; App.Tick 0; App.Tick 0; App.Tick 0].

(** An axios error for a 413 answer whose body carries a detail. *)
Definition too_large : value :=
  VObj [ ("message", VStr "Request failed with status code 413");
         ("request", VObj []);
         ("response", VObj [ ("status", VNum (of_Z 413));
                             ("data", VObj [("detail", VStr "File too large")]) ]) ].

(** An axios error for a 500 answer with an empty JSON body. *)
Definition bare_500 : value :=
  VObj [ ("message", VStr "Request failed with status code 500");
         ("request", VObj []);
         ("response", VObj [ ("status", VNum (of_Z 500));
                             ("data", VObj []) ]) ].

(** An axios error for a request that timed out. *)
Definition timed_out : value :=
  VObj [ ("message", VStr "timeout of 30000ms exceeded");
         ("request", VObj []) ].

(** A plain [Error], as the test suite rejects with. *)
Definition plain_error : value :=
  VObj [ ("message", VStr "Network error") ].

(** An axios error for a 422 answer of the validation layer, whose detail
    is a list of objects. *)
Definition validation_error : value :=
  VObj [ ("message", VStr "Request failed with status code 422");
         ("request", VObj []);
         ("response",
          VObj [ ("status", VNum (of_Z 422));
                 ("data",
                  VObj [ ("detail",
                          VArr [ VObj [ ("loc", VArr [VStr "body"; VStr "file"]);
                                        ("msg", VStr "Field required");
                                        ("type", VStr "missing") ] ]) ]) ]) ].

(** The state after choosing [scan1], pressing Analyze, removing the file
    while the request is outstanding, and the request timing out: the error
    card is shown and no document is selected. *)
Definition failed_without_file : App.World :=
  {| App.ui := {| App.selectedFile := None; App.isLoading := false;
                  App.result := VNull;
                  App.error := VStr "Unable to connect to the server. Please check your connection.";
                  App.uploadProgress := 0 |};
     App.timers := [0%nat]; App.nextTimer := 1; App.inflight := [] |}.

(** For each transition of the component, a sequence of events from the
    initial state and the event that takes the transition after it. *)
Definition table_walks : list (list App.Event * App.Event) :=
  let choose := App.Browse [scan1] in
  let analyze := App.ClickAnalyze in
  let succeed := App.Settle 0 (App.Resolved (VObj [("status", VStr "completed")])) in
  let time_out := App.Settle 0 (App.Rejected timed_out) in
  [ ([], choose);
    ([choose], App.Drop [scan2]);
    ([choose; analyze; succeed], App.Browse [scan2]);
    ([choose; analyze; time_out], App.Browse [scan2]);
    ([choose; analyze], App.Drop [scan2]);
    ([choose; analyze; App.ClickRemoveFile; time_out], App.ClickRetry);
    ([choose], analyze);
    ([choose; analyze; time_out], App.ClickRetry);
    ([choose; analyze; succeed], analyze);
    ([choose; analyze], succeed);
    ([choose; analyze], App.Settle 0 (App.Resolved (VStr "")));
    ([choose; analyze; App.ClickRemoveFile], App.Settle 0 (App.Resolved (VStr "")));
    ([choose; analyze], time_out);
    ([choose; analyze], App.Settle 0 (App.Rejected VUndefined));
    ([choose; analyze; App.ClickRemoveFile], App.Settle 0 (App.Rejected VUndefined));
    ([choose], App.ClickRemoveFile);
    ([choose; analyze; succeed], App.ClickProcessAnother);
    ([choose; analyze; time_out], App.ClickStartOver);
    ([choose; analyze], App.ClickRemoveFile) ].

(** Two submissions that time out, each followed by Try Again. *)
Definition two_failures_then_retry : list App.Event :=
  [App.Browse [scan1]; App.ClickAnalyze; App.Settle 0 (App.Rejected timed_out);
   App.ClickRetry; App.Settle 0 (App.Rejected timed_out); App.ClickRetry].

(** The success payload of the test suite, cut down to one medication. *)
Definition lisinopril_plan : value :=
  VObj [ ("status", VStr "completed");
         ("care_plan",
          VObj [ ("medications",
                  VArr [ VObj [ ("name", VStr "Lisinopril");
                                ("dosage", VStr "10 MG");
                                ("frequency", VStr "Once daily");
                                ("instructions", VStr "Take with water");
                                ("quantity", VNum (of_Z 30));
                                ("refills", VNum (of_Z 12)) ] ]) ]);
         ("processing_time_seconds", VNum (of_ratio 32 10));
         ("confidence_score", VNum (of_ratio 947 1000)) ].

(** A payload whose care plan has no medications. *)
Definition plan_without_medications : value :=
  VObj [ ("status", VStr "completed");
         ("care_plan", VObj [ ("lifestyle_tips", VArr [VStr "Walk daily"]) ]) ].

(** A cost-savings entry that names the drug and the saving only. *)
Definition partial_saving : value :=
  VObj [ ("medication", VStr "Atorvastatin");
         ("monthly_savings", VNum (of_Z 45)) ].

Definition plan_with_partial_saving : value :=
  VObj [ ("agent_results",
          VObj [ ("resource",
                  VObj [ ("result",
                          VObj [ ("cost_savings", VArr [partial_saving]) ]) ]) ]) ].

(** A cost-savings entry flagged as having a generic, without its name. *)
Definition unnamed_generic : value :=
  VObj [ ("medication", VStr "Lipitor");
         ("monthly_savings", VNum (of_Z 45));
         ("generic_available", VBool true);
         ("savings_tips", VArr [VStr "Ask for a 90-day supply"]);
         ("discount_programs", VArr [VStr "GoodRx"]) ].

(** The same entry with the name of the generic. *)
Definition named_generic : value :=
  VObj [ ("medication", VStr "Lipitor");
         ("monthly_savings", VNum (of_Z 45));
         ("generic_available", VBool true);
         ("generic_name", VStr "Atorvastatin");
         ("savings_tips", VArr [VStr "Ask for a 90-day supply"]);
         ("discount_programs", VArr [VStr "GoodRx"]) ].

(** A medication with no refill left and no quantity. *)
Definition no_refills_left : value :=
  VObj [ ("name", VStr "Amoxicillin");
         ("dosage", VStr "500 MG");
         ("frequency", VStr "Three times daily");
         ("instructions", VStr "Finish the course");
         ("refills", VNum (S754_zero false)) ].

(** A payload with one complete cost-savings entry and a total. *)
Definition plan_with_savings : value :=
  VObj [ ("agent_results",
          VObj [ ("resource",
                  VObj [ ("result",
                          VObj [ ("cost_savings", VArr [named_generic]);
                                 ("total_potential_savings",
                                  VNum (of_ratio 1234 10)) ]) ]) ]) ].

End Samples.

(* ================================================================== *)
(** * Properties of the number model *)
(* ================================================================== *)

Module NumberProofs.

Import JS.
Open Scope Z_scope.

Lemma iter_shr_1_mantissa (k : positive) :
  forall mrs, 0 <= shr_m mrs ->
    shr_m (iter_pos shr_1 k mrs) = shr_m mrs / 2 ^ Z.pos k.
Proof.
  assert (H1 : forall mrs, 0 <= shr_m mrs -> shr_m (shr_1 mrs) = shr_m mrs / 2).
  { intros [m r s] Hm; cbn in *.
    destruct m as [|p|p]; [reflexivity| |lia].
    destruct p as [p|p|]; cbn [shr_m].
    - rewrite Pos2Z.inj_xI. apply Z.div_unique with (r := 1); lia.
    - rewrite Pos2Z.inj_xO. apply Z.div_unique with (r := 0); lia.
    - reflexivity. }
  induction k as [k IH|k IH|]; intros mrs Hm; cbn [iter_pos].
  - assert (Hp : 0 < 2 ^ Z.pos k) by (apply Z.pow_pos_nonneg; lia).
    assert (H0 : 0 <= shr_m (shr_1 mrs)) by (rewrite H1 by assumption; apply Z.div_pos; lia).
    assert (H2 : 0 <= shr_m (iter_pos shr_1 k (shr_1 mrs)))
      by (rewrite IH by assumption; apply Z.div_pos; lia).
    rewrite IH, IH, H1 by assumption.
    replace (2 ^ Z.pos k~1) with (2 * (2 ^ Z.pos k * 2 ^ Z.pos k)).
    + rewrite !Z.div_div by lia. reflexivity.
    + rewrite <- Z.pow_add_r, <- Z.pow_succ_r by lia. f_equal. lia.
  - assert (Hp : 0 < 2 ^ Z.pos k) by (apply Z.pow_pos_nonneg; lia).
    assert (H2 : 0 <= shr_m (iter_pos shr_1 k mrs))
      by (rewrite IH by assumption; apply Z.div_pos; lia).
    rewrite IH, IH by assumption.
    replace (2 ^ Z.pos k~0) with (2 ^ Z.pos k * 2 ^ Z.pos k).
    + rewrite !Z.div_div by lia. reflexivity.
    + rewrite <- Z.pow_add_r by lia. f_equal. lia.
  - now apply H1.
Qed.

Lemma digits2_pos_lower (p : positive) : 2 ^ (Z.pos (digits2_pos p) - 1) <= Z.pos p.
Proof.
  induction p as [p IH|p IH|]; cbn [digits2_pos].
  - rewrite Pos2Z.inj_succ.
    replace (Z.succ (Z.pos (digits2_pos p)) - 1) with (Z.succ (Z.pos (digits2_pos p) - 1)) by lia.
    rewrite Z.pow_succ_r by lia.
    revert IH. generalize (2 ^ (Z.pos (digits2_pos p) - 1)). intros; lia.
  - rewrite Pos2Z.inj_succ.
    replace (Z.succ (Z.pos (digits2_pos p)) - 1) with (Z.succ (Z.pos (digits2_pos p) - 1)) by lia.
    rewrite Z.pow_succ_r by lia.
    revert IH. generalize (2 ^ (Z.pos (digits2_pos p) - 1)). intros; lia.
  - cbn. lia.
Qed.

Lemma shr_fexp_positive (m : positive) (e : Z) (l : location) :
  emin prec emax <= e ->
  0 < shr_m (fst (shr_fexp prec emax (Z.pos m) e l))
  /\ emin prec emax <= snd (shr_fexp prec emax (Z.pos m) e l).
Proof.
  intros He. unfold shr_fexp, shr. cbn [Zdigits2].
  set (d := Z.pos (digits2_pos m)).
  assert (Hrec : shr_m (shr_record_of_loc (Z.pos m) l) = Z.pos m)
    by (destruct l as [|[]]; reflexivity).
  destruct (fexp prec emax (d + e) - e) as [|k|k] eqn:Hn; cbn [fst snd].
  - rewrite Hrec. lia.
  - rewrite iter_shr_1_mantissa by (rewrite Hrec; lia).
    rewrite Hrec.
    assert (Hk : Z.pos k = d - 53).
    { unfold fexp, emin, prec, emax in *. lia. }
    split; [|lia].
    apply Z.div_str_pos. split; [apply Z.pow_pos_nonneg; lia|].
    pose proof (digits2_pos_lower m) as Hlow. fold d in Hlow.
    apply Z.le_trans with (2 ^ (d - 1)); [|exact Hlow].
    apply Z.pow_le_mono_r; lia.
  - rewrite Hrec. lia.
Qed.

Lemma round_nearest_even_positive m l : 0 < m -> 0 < round_nearest_even m l.
Proof.
  intros Hm. destruct l as [|[]]; cbn; try lia. destruct (Z.even m); lia.
Qed.

Lemma binary_round_aux_truthy sx (m : positive) e l :
  emin prec emax <= e ->
  number_truthy (binary_round_aux prec emax sx (Z.pos m) e l) = true.
Proof.
  intros He. unfold binary_round_aux.
  pose proof (@shr_fexp_positive m e l He) as [H1 H1e].
  destruct (shr_fexp prec emax (Z.pos m) e l) as [mrs' e'] eqn:E1. cbn [fst snd] in *.
  pose proof (@round_nearest_even_positive _ (loc_of_shr_record mrs') H1) as Hr.
  destruct (round_nearest_even (shr_m mrs') (loc_of_shr_record mrs')) as [|m'|m'] eqn:ER;
    try lia.
  pose proof (@shr_fexp_positive m' e' loc_Exact H1e) as [H2 _].
  destruct (shr_fexp prec emax (Z.pos m') e' loc_Exact) as [mrs'' e''] eqn:E2.
  cbn [fst] in H2.
  destruct (shr_m mrs'') as [|m''|m'']; try lia.
  destruct (e'' <=? emax - prec); reflexivity.
Qed.

Lemma of_Z_positive_truthy (p : positive) : number_truthy (of_Z (Z.pos p)) = true.
Proof.
  unfold of_Z, binary_normalize, binary_round, shl_align.
  set (t := fexp prec emax (Z.pos (digits2_pos p) + 0)).
  assert (Ht : emin prec emax <= t) by (unfold t, fexp; lia).
  destruct (t - 0) as [|d|d] eqn:Hd.
  - apply binary_round_aux_truthy. unfold emin, prec, emax. lia.
  - apply binary_round_aux_truthy. unfold emin, prec, emax. lia.
  - apply binary_round_aux_truthy. exact Ht.
Qed.

Lemma of_Z_zero_falsy : number_truthy (of_Z 0) = false.
Proof. reflexivity. Qed.

(** An array's [length] is truthy exactly when the array has an entry. *)
Lemma array_length_truthy (items : list value) :
  truthy (prop (VArr items) "length") = negb (Nat.eqb (List.length items) 0).
Proof.
  destruct items as [|v rest]; [reflexivity|].
  cbn [prop String.eqb Ascii.eqb Bool.eqb List.length truthy Nat.eqb negb].
  cbn [Z.of_nat]. apply of_Z_positive_truthy.
Qed.

End NumberProofs.

(* ================================================================== *)
(** * Properties of file selection and of the workflow controller *)
(* ================================================================== *)

Module AppProofs.

Import JS App Samples.
Open Scope string_scope.

(** ** Invariant of the reachable states *)

Lemma Inv_initial : Inv initial.
Proof. split; cbn; intros; try discriminate; auto. Qed.

Lemma Inv_handleFileSelect file w : Inv w -> Inv (handleFileSelect file w).
Proof.
  intros [Hl Hs _]; split; cbn; auto.
  intros H. destruct (Hl H) as (_ & _ & Hlen). auto.
Qed.

Lemma Inv_handleReset w : Inv w -> Inv (handleReset w).
Proof.
  intros [Hl Hs _]; split; cbn; auto.
  intros H. destruct (Hl H) as (_ & _ & Hlen). auto.
Qed.

Lemma Inv_tick w : Inv w -> Inv (tick w).
Proof. intros [Hl Hs He]; split; cbn; auto. Qed.

Lemma truthy_not_null v : truthy v = true -> v <> VNull.
Proof. intros H ->. discriminate. Qed.

(** A submit is only ever issued from a state that is not loading: the
    Analyze button is disabled while loading, and the error card is absent
    then. *)
Lemma Inv_handleSubmit w :
  Inv w ->
  isLoading (ui w) = false ->
  (selectedFile (ui w) = None -> error (ui w) <> VNull) ->
  Inv (handleSubmit w).
Proof.
  intros [Hl Hs He] Hidle Hretry. unfold handleSubmit.
  destruct (selectedFile (ui w)) as [file|] eqn:Hsel.
  - split; cbn; auto; try discriminate.
    intros _. rewrite (Hs Hidle). auto.
  - split; cbn; auto.
    + intros H. congruence.
    + destruct He as [He|He]; auto. exfalso. now apply Hretry.
Qed.

Lemma Inv_settle i o w : Inv w -> enabled w (Settle i o) = true -> Inv (settle i o w).
Proof.
  intros [Hl Hs He] Hen. cbn in Hen. unfold settle.
  destruct (nth_error (inflight w) i) as [r|] eqn:Hnth; [|discriminate].
  destruct (isLoading (ui w)) eqn:Hload.
  - destruct (Hl eq_refl) as (Hres & Herr & Hlen).
    assert (Hrm : remove_nth i (inflight w) = []).
    { destruct (inflight w) as [|r0 [|r1 rest]]; try discriminate.
      destruct i as [|[|i]]; cbn in Hnth; try discriminate; reflexivity. }
    destruct o as [data|err].
    + split; cbn; try discriminate; auto.
    + unfold submit_rejected; cbn.
      destruct (errorMessage err) as [msg|e]; split; cbn; try discriminate; auto.
  - rewrite (Hs eq_refl) in Hnth. destruct i; discriminate.
Qed.

Lemma Inv_step w ev w' : Inv w -> step w ev = Some w' -> Inv w'.
Proof.
  intros HI. unfold step.
  destruct (enabled w ev) eqn:Hen; [|discriminate].
  intros [= <-].
  destruct ev; cbn [react].
  - unfold Upload.handleFileChange.
    destruct (Upload.first_file files); auto using Inv_handleFileSelect.
  - unfold Upload.handleDrop.
    destruct (Upload.first_file files) as [file|]; auto.
    destruct (Upload.is_image file); auto using Inv_handleFileSelect.
  - cbn in Hen. apply andb_prop in Hen as [Hf Hl].
    apply Inv_handleSubmit; auto.
    + now destruct (isLoading (ui w)).
    + unfold has_file in Hf. intros Hnone. rewrite Hnone in Hf. discriminate.
  - cbn in Hen. apply Inv_handleSubmit; auto.
    + destruct (isLoading (ui w)) eqn:Hl; auto.
      destruct (inv_loading HI Hl) as (_ & Herr & _).
      rewrite Herr in Hen. discriminate.
    + intros _. now apply truthy_not_null.
  - now apply Inv_handleReset.
  - now apply Inv_handleReset.
  - now apply Inv_handleReset.
  - now apply Inv_tick.
  - now apply Inv_settle.
Qed.

Lemma Inv_run trace : forall w w', Inv w -> run w trace = Some w' -> Inv w'.
Proof.
  induction trace as [|ev rest IH]; cbn; intros w w' HI Hrun.
  - now inversion Hrun; subst.
  - destruct (step w ev) as [w1|] eqn:Hstep; [|discriminate].
    eapply IH; [|exact Hrun]. eapply Inv_step; eauto.
Qed.

Lemma Inv_reachable w : reachable w -> Inv w.
Proof. intros [trace Hrun]. eapply Inv_run; [apply Inv_initial | exact Hrun]. Qed.

(** ** Settlements *)

(** What a settlement finds: with the invariant, the request is the only one
    outstanding and the component is loading. *)
Lemma settle_only_request (w : World) i r :
  Inv w -> nth_error (inflight w) i = Some r ->
  isLoading (ui w) = true /\ inflight w = [r] /\ i = 0%nat.
Proof.
  intros [Hl Hs _] Hnth.
  destruct (isLoading (ui w)) eqn:Hload.
  - destruct (Hl eq_refl) as (_ & _ & Hlen).
    destruct (inflight w) as [|r0 [|r1 rest]]; try discriminate.
    destruct i as [|[|i]]; cbn in Hnth; try discriminate.
    now injection Hnth as ->.
  - rewrite (Hs eq_refl) in Hnth. destruct i; discriminate.
Qed.

(** The message of the [catch] block is truthy, and the block raises only
    on a rejection without a value. *)
Lemma or_else_truthy a b : truthy b = true -> truthy (or_else a b) = true.
Proof. unfold or_else. intros Hb. destruct (truthy a) eqn:Ha; assumption. Qed.

Lemma errorMessage_truthy err msg : errorMessage err = Ok msg -> truthy msg = true.
Proof.
  unfold errorMessage.
  destruct (get err "response") as [response|]; [|discriminate]. cbn [bind].
  destruct (truthy response).
  - destruct (get response "data") as [errorData|]; [|discriminate]. cbn [bind].
    intros [= <-]. apply or_else_truthy. now apply or_else_truthy.
  - destruct (get err "request") as [request|]; [|discriminate]. cbn [bind].
    destruct (truthy request).
    + now intros [= <-].
    + destruct (get err "message") as [message|]; [|discriminate]. cbn [bind].
      intros [= <-]. now apply or_else_truthy.
Qed.

Lemma errorMessage_throws err : throws (errorMessage err) = nullish err.
Proof.
  unfold errorMessage, get. destruct (nullish err) eqn:Hn; [reflexivity|].
  cbn [bind]. destruct (truthy (prop err "response")) eqn:Hr.
  - assert (Hn' : nullish (prop err "response") = false)
      by (destruct (prop err "response"); cbn in *; congruence).
    rewrite Hn'. reflexivity.
  - cbn [bind]. destruct (truthy (prop err "request")); reflexivity.
Qed.

(** ** Selection gestures *)

(** C8 (selection filter).  A drop hands its first file to [onFileSelect],
    and thereby replaces the selected document, exactly when that file
    exists and its media type starts with [image/]; any other drop notifies
    nobody and leaves the state as it was.  A change of the file input hands
    over its first file whatever the media type, and does nothing when there
    is none. *)
Theorem C8_selection_filter (files : list File) (w : World) :
  (forall file,
     Upload.notified (@Upload.handleDrop _) files = [file] <->
     Upload.first_file files = Some file /\ prefix "image/" (type file) = true)
  /\ (forall file,
        Upload.notified (@Upload.handleDrop _) files = [file] ->
        Upload.handleDrop handleFileSelect files w = handleFileSelect file w
        /\ selectedFile (ui (Upload.handleDrop handleFileSelect files w)) = Some file)
  /\ ((forall file, Upload.notified (@Upload.handleDrop _) files <> [file]) ->
        Upload.notified (@Upload.handleDrop _) files = []
        /\ Upload.handleDrop handleFileSelect files w = w)
  /\ (forall file,
        Upload.first_file files = Some file ->
        Upload.notified (@Upload.handleFileChange _) files = [file]
        /\ Upload.handleFileChange handleFileSelect files w = handleFileSelect file w
        /\ selectedFile (ui (Upload.handleFileChange handleFileSelect files w)) = Some file)
  /\ (Upload.first_file files = None ->
        Upload.notified (@Upload.handleFileChange _) files = []
        /\ Upload.handleFileChange handleFileSelect files w = w).
Proof.
  unfold Upload.notified, Upload.handleDrop, Upload.handleFileChange, Upload.is_image.
  destruct files as [|f rest]; cbn [Upload.first_file].
  - repeat split; intros; try discriminate; try tauto.
    destruct H; discriminate.
  - destruct (prefix "image/" (type f)) eqn:Himg.
    + repeat split; intros.
      * now inversion H; subst.
      * now inversion H; subst.
      * destruct H as [[= ->] _]. reflexivity.
      * now inversion H; subst.
      * now inversion H; subst.
      * exfalso. now apply (H f).
      * exfalso. now apply (H f).
      * now inversion H; subst.
      * now inversion H; subst.
      * now inversion H; subst.
      * discriminate.
      * discriminate.
    + repeat split; intros; try discriminate.
      * destruct H as [[= ->] H]. congruence.
      * now inversion H; subst.
      * now inversion H; subst.
      * now inversion H; subst.
Qed.

(** ** The empty submit *)

(** C5 (submit without a document).  When no document is selected,
    [handleSubmit] stores exactly "Please select a file first." in the error
    cell and changes nothing else: the other four cells keep their values (so
    the component does not start loading), no request is posted and no
    interval is started.  In a state the component can reach, Analyze is
    disabled then, and where Try Again is shown it invokes the handler from
    the state Failed and leaves the component in it: no transition of the
    workflow state takes place. *)
Theorem C5_submit_without_document (w : World) :
  selectedFile (ui w) = None ->
  error (ui (handleSubmit w)) = VStr "Please select a file first."
  /\ inflight (handleSubmit w) = inflight w
  /\ timers (handleSubmit w) = timers w
  /\ nextTimer (handleSubmit w) = nextTimer w
  /\ selectedFile (ui (handleSubmit w)) = selectedFile (ui w)
  /\ isLoading (ui (handleSubmit w)) = isLoading (ui w)
  /\ result (ui (handleSubmit w)) = result (ui w)
  /\ uploadProgress (ui (handleSubmit w)) = uploadProgress (ui w)
  /\ (reachable w ->
      step w ClickAnalyze = None
      /\ (enabled w ClickRetry = true ->
          step w ClickRetry = Some (handleSubmit w)
          /\ workflow (ui w) = Failed
          /\ workflow (ui (handleSubmit w)) = workflow (ui w))).
Proof.
  intros Hnone.
  assert (Hsubmit : handleSubmit w
                    = with_ui w {| selectedFile := None;
                                   isLoading := isLoading (ui w);
                                   result := result (ui w);
                                   error := VStr "Please select a file first.";
                                   uploadProgress := uploadProgress (ui w) |}).
  { unfold handleSubmit. now rewrite Hnone. }
  rewrite Hsubmit. cbn [with_ui ui inflight timers nextTimer selectedFile isLoading
                        result error uploadProgress].
  do 4 (split; [reflexivity|]). split; [now rewrite Hnone|].
  do 3 (split; [reflexivity|]).
  intros Hr. pose proof (Inv_reachable Hr) as HI. split.
  - unfold step. cbn [enabled]. unfold has_file. now rewrite Hnone.
  - intros Hen. cbn [enabled] in Hen.
    assert (Hl : isLoading (ui w) = false).
    { destruct (isLoading (ui w)) eqn:Hl; [|reflexivity].
      destruct (inv_loading HI Hl) as (_ & He & _). rewrite He in Hen. discriminate. }
    assert (Hres : result (ui w) = VNull).
    { destruct (inv_exclusive HI) as [H|H]; [exact H|].
      rewrite H in Hen. discriminate. }
    split; [|split].
    + unfold step. cbn [enabled react]. now rewrite Hen, Hsubmit.
    + unfold workflow. now rewrite Hl, Hres, Hen.
    + unfold workflow. cbn. now rewrite Hl, Hres, Hen.
Qed.

Lemma reachable_failed_without_file : reachable failed_without_file.
Proof.
  exists [Browse [scan1]; ClickAnalyze; ClickRemoveFile; Settle 0 (Rejected timed_out)].
  reflexivity.
Defined.

Lemma C5_submit_without_document_witness :
  selectedFile (ui failed_without_file) = None
  /\ error (ui (handleSubmit failed_without_file)) = VStr "Please select a file first."
  /\ inflight (handleSubmit failed_without_file) = []
  /\ step failed_without_file ClickRetry = Some (handleSubmit failed_without_file)
  /\ workflow (ui failed_without_file) = Failed
  /\ workflow (ui (handleSubmit failed_without_file)) = Failed.
Proof.
  split; [reflexivity|].
  destruct (@C5_submit_without_document failed_without_file eq_refl)
    as (He & Hi & _ & _ & _ & _ & _ & _ & Hw).
  destruct (Hw reachable_failed_without_file) as (_ & Hretry).
  destruct (Hretry eq_refl) as (Hs & Hbefore & Hafter).
  split; [exact He|]. split; [exact Hi|]. split; [exact Hs|].
  split; [exact Hbefore|]. rewrite Hafter. exact Hbefore.
Defined.

(** On the workflow state read off the cells, the empty submit is a no-op
    from every state but [Idle], where the error card appears. *)
Lemma submit_without_document_workflow (w : World) :
  selectedFile (ui w) = None ->
  workflow (ui (handleSubmit w))
  = match workflow (ui w) with
    | Idle => Failed
    | st => st
    end.
Proof.
  intros Hnone. unfold handleSubmit, workflow, has_file. rewrite Hnone. cbn.
  destruct (isLoading (ui w)), (truthy (result (ui w))), (truthy (error (ui w)));
    reflexivity.
Qed.

(** ** Result and error are never shown together *)

(** C10 (mutual exclusion).  In every state the mounted component can
    reach, the result cell or the error cell is [null]; hence the care plan
    and the error card are never rendered together. *)
Theorem C10_result_error_exclusive (w : World) :
  reachable w ->
  (result (ui w) = VNull \/ error (ui w) = VNull)
  /\ truthy (result (ui w)) && truthy (error (ui w)) = false.
Proof.
  intros Hr. destruct (Inv_reachable Hr) as [_ _ [H|H]]; rewrite H; cbn; auto.
  split; auto. apply andb_false_r.
Qed.

Lemma reachable_after_rejection :
  reachable
    {| ui := {| selectedFile := Some scan1; isLoading := false; result := VNull;
                error := VStr "File too large"; uploadProgress := 0 |};
       timers := [0%nat]; nextTimer := 1; inflight := [] |}.
Proof.
  exists [Browse [scan1]; ClickAnalyze; Settle 0 (Rejected too_large)].
  reflexivity.
Defined.

Lemma C10_result_error_exclusive_witness :
  truthy VNull && truthy (VStr "File too large") = false.
Proof.
  exact (proj2 (C10_result_error_exclusive reachable_after_rejection)).
Defined.

Example drop_of_a_pdf_is_ignored :
  Upload.handleDrop handleFileSelect [notes] initial = initial.
Proof. reflexivity. Qed.

Example browse_of_a_pdf_is_accepted :
  selectedFile (ui (Upload.handleFileChange handleFileSelect [notes] initial))
  = Some notes.
Proof. reflexivity. Qed.

(** ** Selection while a submission is outstanding *)

(** Counterexample to C1 as stated: while the submission of [scan1] is
    outstanding the upload area still accepts a drop, which replaces the
    selected document by [scan2]. *)
Lemma C1_selection_reachable_while_submitting :
  run initial [Browse [scan1]; ClickAnalyze] = Some submitting_scan1
  /\ workflow (ui submitting_scan1) = Submitting
  /\ exists w',
       step submitting_scan1 (Drop [scan2]) = Some w'
       /\ selectedFile (ui w') = Some scan2
       /\ selectedFile (ui submitting_scan1) = Some scan1
       /\ workflow (ui w') = Submitting
       /\ body (hd {| body := scan2; progressInterval := 0 |} (inflight w')) = scan1.
Proof.
  split; [reflexivity|]. split; [reflexivity|].
  eexists. split; [reflexivity|]. cbn. repeat split.
Qed.

(** ** The transitions of the workflow state *)

Ltac row_listed := solve [repeat first [left; reflexivity | right]].

Ltac row_not_listed :=
  let H := fresh in
  intros H; cbn in H; repeat destruct H as [H|H]; solve [discriminate H | exact H].

Ltac row_holds := cbn; split; [row_listed | row_not_listed].

(** Every step of the component takes a row of the table or one of the
    added rows, and none of the rows that are never taken; a step that is no
    event of the table keeps the workflow state. *)
Lemma step_row (w w' : World) (ev : Event) :
  Inv w ->
  step w ev = Some w' ->
  match table_event w ev with
  | Some e =>
      In (workflow (ui w), e, workflow (ui w')) (Spec.table ++ Spec.added)
      /\ ~ In (workflow (ui w), e, workflow (ui w')) Spec.never_taken
  | None => workflow (ui w') = workflow (ui w)
  end.
Proof.
  intros HI. unfold step.
  destruct (enabled w ev) eqn:Hen; [|discriminate]. intros [= <-].
  assert (Hselect : forall file,
            In (workflow (ui w), SelectionChanged,
                workflow (ui (handleFileSelect file w))) (Spec.table ++ Spec.added)
            /\ ~ In (workflow (ui w), SelectionChanged,
                     workflow (ui (handleFileSelect file w))) Spec.never_taken).
  { intros file. unfold workflow, has_file. cbn.
    destruct (isLoading (ui w)); [row_holds|].
    destruct (truthy (result (ui w))); [row_holds|].
    destruct (truthy (error (ui w))); [row_holds|].
    destruct (selectedFile (ui w)); row_holds. }
  assert (Hreset : isLoading (ui w) = true \/ has_file (ui w) = true
                   \/ truthy (result (ui w)) = true \/ truthy (error (ui w)) = true ->
            In (workflow (ui w), ResetInvoked, workflow (ui (handleReset w)))
               (Spec.table ++ Spec.added)
            /\ ~ In (workflow (ui w), ResetInvoked, workflow (ui (handleReset w)))
                    Spec.never_taken).
  { intros Hsome. unfold workflow, has_file in *. cbn.
    destruct (isLoading (ui w)); [row_holds|].
    destruct (truthy (result (ui w))); [row_holds|].
    destruct (truthy (error (ui w))); [row_holds|].
    destruct (selectedFile (ui w)); [row_holds|].
    exfalso. destruct Hsome as [H|[H|[H|H]]]; discriminate. }
  assert (Hsubmit : isLoading (ui w) = false ->
            (has_file (ui w) = true \/ truthy (error (ui w)) = true) ->
            In (workflow (ui w),
                if has_file (ui w) then SubmitWithDocument else SubmitWithoutDocument,
                workflow (ui (handleSubmit w))) (Spec.table ++ Spec.added)
            /\ ~ In (workflow (ui w),
                     if has_file (ui w) then SubmitWithDocument
                     else SubmitWithoutDocument,
                     workflow (ui (handleSubmit w))) Spec.never_taken).
  { intros Hl Hsome. unfold handleSubmit, workflow, has_file in *. rewrite Hl.
    destruct (inv_exclusive HI) as [H|H]; rewrite H in *; cbn [truthy] in *.
    - destruct (selectedFile (ui w)); cbn.
      + destruct (truthy (error (ui w))); row_holds.
      + destruct (truthy (error (ui w))); [row_holds|].
        exfalso. destruct Hsome; discriminate.
    - destruct (selectedFile (ui w)); cbn.
      + destruct (truthy (result (ui w))); row_holds.
      + exfalso. destruct Hsome; discriminate. }
  destruct ev; cbn [table_event react].
  - unfold Upload.handleFileChange.
    destruct (Upload.first_file files); [apply Hselect | reflexivity].
  - unfold Upload.handleDrop.
    destruct (Upload.first_file files) as [file|]; [|reflexivity].
    destruct (Upload.is_image file); [apply Hselect | reflexivity].
  - cbn in Hen. apply andb_prop in Hen as [Hf Hl]. apply negb_true_iff in Hl. auto.
  - cbn in Hen. apply Hsubmit; [|auto].
    destruct (isLoading (ui w)) eqn:Hl; [|reflexivity].
    destruct (inv_loading HI Hl) as (_ & He & _). rewrite He in Hen. discriminate.
  - cbn in Hen. auto.
  - cbn in Hen. auto.
  - cbn in Hen. auto.
  - reflexivity.
  - cbn in Hen. unfold settle.
    destruct (nth_error (inflight w) i) as [r|] eqn:Hnth; [|discriminate].
    destruct (@settle_only_request w _ _ HI Hnth) as (Hl & _ & _).
    destruct (inv_loading HI Hl) as (Hres & Herr & _).
    destruct o as [data|err].
    + unfold submit_fulfilled, workflow, has_file. cbn. rewrite Hl, Herr. cbn.
      destruct (truthy data); [row_holds|].
      destruct (selectedFile (ui w)); row_holds.
    + unfold submit_rejected, workflow, has_file. cbn. rewrite Hl.
      destruct (errorMessage err) as [msg|e] eqn:Hmsg; cbn.
      * rewrite Hres, (@errorMessage_truthy err msg Hmsg). cbn. row_holds.
      * rewrite Hres, Herr. cbn.
        destruct (selectedFile (ui w)); row_holds.
Qed.

Ltac walk l :=
  lazymatch l with
  | (?trace, ?ev) :: ?rest =>
      first [ exists trace, ev; vm_compute; reflexivity | walk rest ]
  end.

Ltac find_walk :=
  let l := eval cbv beta zeta delta [table_walks] in table_walks in walk l.

(** C1 (amended).  The workflow state moves along the table of the
    specification with the exceptions the code has, and along nothing else.
    From a reachable state, every accepted event that is an event of the
    table takes a row of the table or one of the added rows - a selection
    made with a document selected, beside a care plan or while submitting,
    a submit beside a care plan, a settlement that leaves neither care plan
    nor error, a reset while submitting, which stays submitting - and never
    one of the three rows the code lacks; any other accepted event keeps the
    state.  While a submission is outstanding both submit controls are
    unavailable and exactly one request is in flight, whereas the selection
    gestures are live: browsing to a file, or dropping an image, replaces
    the selected document and leaves the request outstanding.  Every row so
    allowed is taken by some sequence of events from the initial state. *)
Theorem C1_workflow_transitions (w : World) :
  reachable w ->
  (forall ev w',
     step w ev = Some w' ->
     match table_event w ev with
     | Some e =>
         In (workflow (ui w), e, workflow (ui w')) (Spec.table ++ Spec.added)
         /\ ~ In (workflow (ui w), e, workflow (ui w')) Spec.never_taken
     | None => workflow (ui w') = workflow (ui w)
     end)
  /\ (workflow (ui w) = Submitting ->
      step w ClickAnalyze = None /\ step w ClickRetry = None
      /\ List.length (inflight w) = 1%nat
      /\ forall file rest gesture,
           gesture = Browse (file :: rest)
           \/ (gesture = Drop (file :: rest) /\ prefix "image/" (type file) = true) ->
           exists w',
             step w gesture = Some w'
             /\ table_event w gesture = Some SelectionChanged
             /\ selectedFile (ui w') = Some file
             /\ result (ui w') = VNull /\ error (ui w') = VNull
             /\ inflight w' = inflight w
             /\ workflow (ui w') = Submitting)
  /\ (forall row,
        In row (Spec.table ++ Spec.added) ->
        ~ In row Spec.never_taken ->
        exists trace ev, taken trace ev = Some row).
Proof.
  intros Hr. pose proof (Inv_reachable Hr) as HI. split; [|split].
  - intros ev w' Hstep. now apply step_row.
  - unfold workflow. destruct (isLoading (ui w)) eqn:Hl.
    + intros _. destruct (inv_loading HI Hl) as (_ & Herr & Hlen).
      split; [unfold step; cbn; now rewrite Hl, andb_false_r|].
      split; [unfold step; cbn; now rewrite Herr|].
      split; [exact Hlen|].
      intros file rest gesture [-> | [-> Himg]].
      * eexists. split; [reflexivity|]. cbn. now rewrite Hl.
      * eexists. split; [reflexivity|].
        cbn. unfold Upload.handleDrop, Upload.is_image; cbn. rewrite Himg.
        cbn. now rewrite Hl.
    + destruct (truthy (result (ui w))), (truthy (error (ui w))), (has_file (ui w));
        discriminate.
  - intros row Hin Hnot. cbn in Hin.
    repeat destruct Hin as [<- | Hin]; try contradiction;
      first [ find_walk | exfalso; apply Hnot; row_listed ].
Qed.

Lemma reachable_submitting_scan1 : reachable submitting_scan1.
Proof. exists [Browse [scan1]; ClickAnalyze]. reflexivity. Defined.

Lemma C1_workflow_transitions_witness :
  step submitting_scan1 ClickAnalyze = None
  /\ step submitting_scan1 ClickRetry = None
  /\ List.length (inflight submitting_scan1) = 1%nat
  /\ In (Submitting, ResetInvoked, Submitting) (Spec.table ++ Spec.added).
Proof.
  destruct (@C1_workflow_transitions _ reachable_submitting_scan1)
    as (Hrows & Hsub & _).
  destruct (Hsub eq_refl) as (Ha & Hretry & Hone & _).
  split; [exact Ha|]. split; [exact Hretry|]. split; [exact Hone|].
  exact (proj1 (Hrows ClickRemoveFile _ eq_refl)).
Defined.

(** ** The progress interval *)

Lemma submit_fulfilled_clears_interval r data w :
  ~ In (progressInterval r) (timers (submit_fulfilled r data w)).
Proof.
  cbn. unfold clearInterval. rewrite filter_In. intros [_ H].
  now rewrite Nat.eqb_refl in H.
Qed.

Lemma submit_rejected_keeps_intervals r err w :
  timers (submit_rejected r err w) = timers w.
Proof. reflexivity. Qed.

(** C3 (failing input).  After choosing [scan1], pressing Analyze and the
    request timing out, the component has left the loading state and shows
    the connection error, yet interval 0 is still live; its next firing moves
    the progress cell, which the [finally] block had reset, to 10. *)
Theorem C3_interval_survives_rejection :
  exists w w',
    run initial [Browse [scan1]; ClickAnalyze; Settle 0 (Rejected timed_out)] = Some w
    /\ workflow (ui w) = Failed
    /\ inflight w = []
    /\ timers w = [0%nat]
    /\ uploadProgress (ui w) = 0%Z
    /\ step w (Tick 0) = Some w'
    /\ uploadProgress (ui w') = 10%Z.
Proof.
  do 2 eexists. split; [reflexivity|]. cbn. repeat split.
Qed.

Example interval_cleared_on_success :
  exists w,
    run initial [Browse [scan1]; ClickAnalyze; Settle 0 (Resolved (VObj []))] = Some w
    /\ timers w = [] /\ step w (Tick 0) = None.
Proof. eexists. split; [reflexivity|]. split; reflexivity. Qed.

(** ** Failure classification *)

Lemma get_present v k : nullish v = false -> get v k = Ok (prop v k).
Proof. unfold get. now intros ->. Qed.

Lemma get_opt_present v k : nullish v = false -> get_opt v k = prop v k.
Proof. unfold get_opt. now intros ->. Qed.

Lemma truthy_present v : truthy v = true -> nullish v = false.
Proof. destruct v; cbn; auto; discriminate. Qed.

(** Counterexample to C4 as stated: a 500 answer with an empty body matches
    neither rule (1), for want of a message or detail, nor rule (2), a
    response having arrived; rule (3) would show the failure's own message,
    whereas the code shows the generic fallback. *)
Lemma C4_response_without_text_gets_fallback :
  errorMessage bare_500 = Ok (VStr "An error occurred. Please try again.")
  /\ Spec.displayMessage bare_500 = VStr "Request failed with status code 500".
Proof. split; reflexivity. Qed.

(** C4 (amended).  For a rejection value that is an object, the message is
    the one the ordered classification gives - a response's message, else
    its detail, verbatim; the connection message when a request got no
    response; otherwise the failure's own message, else the fallback - with
    one difference: a response that carries neither a message nor a detail
    yields the generic fallback, whatever the failure's own message is. *)
Theorem C4_failure_classification (err : value) :
  nullish err = false ->
  errorMessage err =
  Ok (if truthy (get_opt err "response") && negb (truthy (Spec.structured_text err))
      then Spec.fallback
      else Spec.displayMessage err).
Proof.
  intros Hobj.
  unfold errorMessage, Spec.displayMessage, Spec.structured_text.
  rewrite !(@get_present err), !(@get_opt_present err) by assumption.
  cbn [bind].
  destruct (truthy (prop err "response")) eqn:Hresp.
  - pose proof (truthy_present _ Hresp) as Hresp'.
    rewrite (@get_present (prop err "response")),
      !(@get_opt_present (prop err "response")) by assumption.
    cbn [bind].
    set (body := prop (prop err "response") "data").
    unfold or_else.
    destruct (truthy (get_opt body "message")) eqn:Hm; cbn.
    + now rewrite ?Hm.
    + destruct (truthy (get_opt body "detail")) eqn:Hd; cbn; now rewrite ?Hd.
  - cbn. destruct (truthy (prop err "request")); reflexivity.
Qed.

Lemma C4_failure_classification_witness :
  errorMessage too_large = Ok (VStr "File too large").
Proof. exact (C4_failure_classification too_large eq_refl). Defined.

Example timeout_gets_connection_message :
  errorMessage timed_out
  = Ok (VStr "Unable to connect to the server. Please check your connection.").
Proof. reflexivity. Qed.

Example plain_error_gets_own_message :
  errorMessage plain_error = Ok (VStr "Network error").
Proof. reflexivity. Qed.

Example rejection_with_undefined_raises :
  throws (errorMessage VUndefined) = true.
Proof. reflexivity. Qed.

End AppProofs.
(* ================================================================== *)
(** * Properties of the care-plan rendering *)
(* ================================================================== *)

Module DisplayProofs.

Import JS Display Spec Samples NumberProofs.
Open Scope string_scope.

(** ** Tolerant access *)

Lemma get_opt_nullish v k : nullish v = true -> get_opt v k = VUndefined.
Proof. unfold get_opt. now intros ->. Qed.

Lemma get_opt_some v k : nullish (get_opt v k) = false -> nullish v = false.
Proof.
  destruct (nullish v) eqn:Hv; [|reflexivity].
  now rewrite (@get_opt_nullish v k Hv).
Qed.


Lemma get_some v k : nullish v = false -> get v k = Ok (prop v k).
Proof. unfold get. now intros ->. Qed.

Lemma get_opt_prop v k : nullish v = false -> get_opt v k = prop v k.
Proof. unfold get_opt. now intros ->. Qed.

Lemma get_ok v k x : get v k = Ok x -> nullish v = false /\ x = prop v k.
Proof.
  unfold get. destruct (nullish v); [discriminate|]. now intros [= <-].
Qed.





(** ** The common shape of the six care-plan sections *)







Lemma renderLifestyleTips_guarded data :
  renderLifestyleTips data =
  guarded_section "lifestyle_tips" "lifestyle-section" (listItem "tip-item")
    (fun items => [el0 "h3" [Text "🌱 Lifestyle Tips"];
                   el "ul" "tips-list" [Items items]]) data.
Proof. reflexivity. Qed.

Lemma renderFollowUp_guarded data :
  renderFollowUp data =
  guarded_section "follow_up_instructions" "followup-section"
    (listItem "followup-item")
    (fun items => [el0 "h3" [Text "📅 Follow-up Instructions"];
                   el "ul" "followup-list" [Items items]]) data.
Proof. reflexivity. Qed.

Lemma renderEmergencyContacts_guarded data :
  renderEmergencyContacts data =
  guarded_section "emergency_contacts" "emergency-section"
    (listItem "contact-item")
    (fun items => [el0 "h3" [Text "🚨 Emergency Contacts"];
                   el "ul" "contacts-list" [Items items]]) data.
Proof. reflexivity. Qed.

(** ** The two resource sections *)





(** ** Every section *)





(** ** Tab composition *)

Ltac section_result H r :=
  let o := fresh "o" in
  let Ho := fresh "Ho" in
  destruct r as [o|] eqn:Ho; cbn [bind] in H; [|discriminate H].







Example medications_tab_of_the_lisinopril_plan :
  exists body,
    tabContent "medications" lisinopril_plan = Ok body
    /\ shown body = [Medications].
Proof. eexists. split; vm_compute; reflexivity. Qed.

Example overview_tab_of_the_lisinopril_plan :
  exists body,
    tabContent "overview" lisinopril_plan = Ok body
    /\ shown body = [Medications].
Proof. eexists. split; vm_compute; reflexivity. Qed.

Example medications_tab_without_medications :
  exists body,
    tabContent "medications" plan_without_medications = Ok body
    /\ shown body = []
    /\ textContent body = Some "".
Proof. eexists. do 2 (split; [vm_compute; reflexivity|]). vm_compute; reflexivity. Qed.

(** ** Totality of the renderers *)

(** C2 (failing input).  On a payload whose only cost-savings entry has a
    medication and a monthly saving but no [savings_tips], the cost-savings
    renderer raises, and with it the body of the Resources tab; the other
    seven renderers return [null] on the same payload. *)
Theorem C2_partial_saving_entry_raises :
  throws (renderCostSavings plan_with_partial_saving) = true
  /\ throws (savingsCard partial_saving 0) = true
  /\ throws (tabContent "resources" plan_with_partial_saving) = true
  /\ populated (backing CostSavings plan_with_partial_saving) = true
  /\ forall s, s <> CostSavings -> render s plan_with_partial_saving = Ok None.
Proof.
  do 4 (split; [vm_compute; reflexivity|]).
  intros s Hs. destruct s; try (vm_compute; reflexivity). now elim Hs.
Qed.

(** ** The generic line of a savings card *)

Lemma has_text_items t (ns : list node) :
  Forall (fun n => has_text t n = false) ns -> existsb (has_text t) ns = false.
Proof.
  induction 1 as [|n ns Hn _ IH]; [reflexivity|].
  cbn [existsb]. now rewrite Hn, IH.
Qed.

Lemma mapM_from_Forall A B (P : B -> Prop) (f : A -> nat -> result B) :
  (forall a i b, f a i = Ok b -> P b) ->
  forall l i bs, mapM_from f i l = Ok bs -> Forall P bs.
Proof.
  intros Hf. induction l as [|a l IH]; intros i bs H; cbn in H.
  - injection H as <-. constructor.
  - destruct (f a i) as [b|] eqn:Hb; [|discriminate]. cbn [bind] in H.
    destruct (mapM_from f (S i) l) as [bs'|] eqn:Hbs; [|discriminate].
    cbn [bind] in H. injection H as <-.
    constructor; eauto.
Qed.

Lemma array_map_Forall B (P : B -> Prop) (f : value -> nat -> result B) v bs :
  (forall a i b, f a i = Ok b -> P b) ->
  array_map v f = Ok bs -> Forall P bs.
Proof.
  intros Hf H. destruct v; cbn in H; try discriminate.
  eapply mapM_from_Forall; eauto.
Qed.

(** Counterexample to C7 as stated: an entry flagged as having a generic but
    carrying no generic name still gets the line, which then reads
    "Generic Available: Yes - " with nothing after the dash. *)
Lemma C7_line_without_name :
  prop unnamed_generic "generic_available" = VBool true
  /\ prop unnamed_generic "generic_name" = VUndefined
  /\ exists card,
       savingsCard unnamed_generic 0 = Ok card
       /\ announces_generic card = true
       /\ textContent (genericLine (prop unnamed_generic "generic_name"))
          = Some "Generic Available: Yes - ".
Proof.
  split; [reflexivity|]. split; [reflexivity|].
  eexists. split; [vm_compute; reflexivity|]. split; vm_compute; reflexivity.
Qed.

(** C7 (amended).  Whenever a savings card renders, the line announcing a
    generic is in it exactly when the entry's generic-availability flag is
    truthy; the line then consists of the label, " Yes - " and whatever the
    entry holds as generic name, which prints as nothing when the name is
    absent. *)
Theorem C7_generic_line (saving : value) (index : nat) (card : node) :
  savingsCard saving index = Ok card ->
  announces_generic card = truthy (prop saving "generic_available")
  /\ (truthy (prop saving "generic_available") = true ->
      exists header tips programs,
        card = el "div" "savings-card"
                 [ header;
                   el "div" "savings-details"
                     [ genericLine (prop saving "generic_name"); tips; programs ] ])
  /\ (prop saving "generic_name" = VUndefined ->
      textContent (genericLine (prop saving "generic_name"))
      = Some "Generic Available: Yes - ").
Proof.
  unfold savingsCard. intros H.
  destruct (get saving "medication") as [medication|] eqn:Hmed; [|discriminate].
  apply get_ok in Hmed as [Hsaving ->].
  rewrite !(@get_some saving _ Hsaving) in H. cbn [bind] in H.
  destruct (array_map (prop saving "savings_tips") _) as [tips|] eqn:Htips;
    [|destruct (truthy (prop saving "generic_available")); discriminate].
  destruct (array_map (prop saving "discount_programs") _) as [programs|] eqn:Hprog;
    [|destruct (truthy (prop saving "generic_available")); discriminate].
  assert (Ht : existsb (has_text "Generic Available:") tips = false).
  { apply has_text_items. eapply array_map_Forall; [|exact Htips].
    intros a i b [= <-]. reflexivity. }
  assert (Hp : existsb (has_text "Generic Available:") programs = false).
  { apply has_text_items. eapply array_map_Forall; [|exact Hprog].
    intros a i b [= <-]. reflexivity. }
  destruct (truthy (prop saving "generic_available")) eqn:Hflag;
    cbn [bind] in H; injection H as <-.
  - split; [|split; [eauto | now intros ->]].
    reflexivity.
  - split; [|split; [discriminate | now intros ->]].
    unfold announces_generic. cbn. now rewrite Ht, Hp.
Qed.

Lemma C7_generic_line_witness :
  exists card,
    savingsCard named_generic 0 = Ok card
    /\ announces_generic card = true.
Proof.
  eexists. split; [vm_compute; reflexivity|].
  refine (proj1 (@C7_generic_line named_generic 0 _ _)).
  vm_compute; reflexivity.
Defined.

(** ** Display formats *)

(** C9 (display formats).  A confidence score of 0.947 is shown as "95%",
    a processing time of 3.2 seconds as "3.2s", and total potential savings
    of 123.4 as "$123.40": on a payload with [confidence_score] 0.947 and
    [processing_time_seconds] 3.2 the header reads "Confidence: 95%" and
    "Processed in 3.2s", and on a payload with [total_potential_savings]
    123.4 the cost-savings heading reads "Potential Annual Savings: $123.40". *)
Theorem C9_display_formats :
  (exists percent,
     confidencePercent lisinopril_plan = Ok (Some percent)
     /\ textContent (confidenceScore percent) = Some "Confidence: 95%")
  /\ (exists span,
        processingTime lisinopril_plan = Ok span
        /\ textContent span = Some "Processed in 3.2s")
  /\ (exists heading cards,
        renderCostSavings plan_with_savings
        = Ok (Some (el "div" "cost-savings-section"
                      [ el0 "h3" [Text "💰 Cost Savings Opportunities"];
                        el "div" "savings-summary"
                          [el "div" "savings-total" [heading]];
                        Items cards ]))
        /\ textContent heading = Some "Potential Annual Savings: $123.40").
Proof.
  split; [|split].
  - eexists. split; [vm_compute; reflexivity|]. vm_compute; reflexivity.
  - eexists. split; [vm_compute; reflexivity|]. vm_compute; reflexivity.
  - do 2 eexists. split; [vm_compute; reflexivity|]. vm_compute; reflexivity.
Qed.

End DisplayProofs.

(* ================================================================== *)
(** * Properties of strings *)
(* ================================================================== *)

Module StringProofs.

Import JS.
Open Scope string_scope.

Lemma append_nil_r (s : string) : s ++ "" = s.
Proof. induction s as [|c s IH]; cbn; [reflexivity | now rewrite IH]. Qed.

Lemma append_assoc (a b c : string) : (a ++ b) ++ c = a ++ (b ++ c).
Proof. induction a as [|x a IH]; cbn; [reflexivity | now rewrite IH]. Qed.

Lemma length_append (a b : string) :
  String.length (a ++ b) = (String.length a + String.length b)%nat.
Proof. induction a as [|x a IH]; cbn; [reflexivity | now rewrite IH]. Qed.

Lemma length_zeros (n : nat) : String.length (zeros n) = n.
Proof. induction n as [|n IH]; cbn; [reflexivity | now rewrite IH]. Qed.

Lemma length_substring (s : string) :
  forall n m, (n + m <= String.length s)%nat -> String.length (substring n m s) = m.
Proof.
  induction s as [|c s IH]; intros n m H; cbn in H.
  - assert (n = 0 /\ m = 0)%nat as [-> ->] by lia. reflexivity.
  - destruct n as [|n]; cbn.
    + destruct m as [|m]; [reflexivity|]. cbn. f_equal. apply IH. lia.
    + apply IH. lia.
Qed.

End StringProofs.

(* ================================================================== *)
(** * Further properties of the workflow controller *)
(* ================================================================== *)

Module AppExtras.

Import JS App Samples AppProofs.
Open Scope string_scope.

(** ** Interval handles and the progress cell *)

Lemma HandleInv_initial : HandleInv initial.
Proof.
  split; cbn; try constructor; try lia; reflexivity.
Qed.

Lemma HandleInv_same_environment (w : World) (s : State) :
  HandleInv w ->
  ((0 <= uploadProgress s <= 90)%Z /\ (uploadProgress s mod 10 = 0)%Z) ->
  HandleInv (with_ui w s).
Proof. intros [Hd Hi Hh Hp] Hs. split; cbn; auto. Qed.

Lemma HandleInv_handleSubmit (w : World) : HandleInv w -> HandleInv (handleSubmit w).
Proof.
  intros HI. pose proof HI as [Hd Hi Hh Hp]. unfold handleSubmit.
  destruct (selectedFile (ui w)) as [file|].
  - split; cbn.
    + constructor; [|exact Hd].
      intros Hin. rewrite Forall_forall in Hi. specialize (Hi _ Hin). lia.
    + constructor; [lia|].
      eapply Forall_impl; [|exact Hi]. cbn. intros; lia.
    + apply Forall_app. split.
      * eapply Forall_impl; [|exact Hh]. cbn. auto.
      * constructor; [|constructor]. cbn. auto.
    + split; [lia | reflexivity].
  - now apply HandleInv_same_environment.
Qed.

Lemma HandleInv_tick (w : World) : HandleInv w -> HandleInv (tick w).
Proof.
  intros HI. pose proof HI as [_ _ _ [Hb Hm]].
  apply HandleInv_same_environment; [exact HI|]. cbn.
  destruct (Z.min_spec (uploadProgress (ui w) + 10) 90) as [[Hlt ->] | [Hle ->]].
  - split; [lia|].
    rewrite <- (Z.mul_1_l 10) at 1. now rewrite Z.mod_add by lia.
  - split; [lia | reflexivity].
Qed.

Lemma clearInterval_NoDup id ts : NoDup ts -> NoDup (clearInterval id ts).
Proof. apply NoDup_filter. Qed.

Lemma clearInterval_In id ts t :
  In t (clearInterval id ts) <-> In t ts /\ t <> id.
Proof.
  unfold clearInterval. rewrite filter_In, negb_true_iff, Nat.eqb_neq. tauto.
Qed.

Lemma clearInterval_length id ts :
  NoDup ts -> In id ts -> S (List.length (clearInterval id ts)) = List.length ts.
Proof.
  unfold clearInterval. induction 1 as [|t ts Hnot Hnd IH]; intros Hin; [easy|].
  cbn. destruct (Nat.eqb t id) eqn:E; cbn.
  - apply Nat.eqb_eq in E. subst t. f_equal.
    clear IH Hin Hnd. induction ts as [|u ts IH]; [reflexivity|]. cbn.
    destruct (Nat.eqb u id) eqn:E; cbn.
    + apply Nat.eqb_eq in E. subst u. exfalso. apply Hnot. now left.
    + f_equal. apply IH. intros H. apply Hnot. now right.
  - f_equal. apply IH. destruct Hin as [->|]; [|assumption].
    now rewrite Nat.eqb_refl in E.
Qed.

Lemma HandleInv_settle (w : World) i o :
  Inv w -> HandleInv w -> enabled w (Settle i o) = true -> HandleInv (settle i o w).
Proof.
  intros HI HH Hen. pose proof HH as [Hd Hi Hh Hp]. cbn in Hen. unfold settle.
  destruct (nth_error (inflight w) i) as [r|] eqn:Hnth; [|discriminate].
  destruct (@settle_only_request w _ _ HI Hnth) as (_ & Hone & ->).
  rewrite Hone. cbn [remove_nth].
  destruct o as [data|err].
  - split; cbn.
    + now apply clearInterval_NoDup.
    + rewrite Forall_forall in *. intros t Ht.
      apply clearInterval_In in Ht as [Ht _]. auto.
    + constructor.
    + split; [lia | reflexivity].
  - unfold submit_rejected.
    split; cbn; auto; first [ split; [lia | reflexivity] | constructor ].
Qed.

Lemma HandleInv_step (w w' : World) ev :
  Inv w -> HandleInv w -> step w ev = Some w' -> HandleInv w'.
Proof.
  intros HI HH. unfold step.
  destruct (enabled w ev) eqn:Hen; [|discriminate]. intros [= <-].
  pose proof HH as [_ _ _ Hp].
  destruct ev; cbn [react].
  - unfold Upload.handleFileChange. destruct (Upload.first_file files); auto.
    now apply HandleInv_same_environment.
  - unfold Upload.handleDrop. destruct (Upload.first_file files) as [file|]; auto.
    destruct (Upload.is_image file); auto.
    now apply HandleInv_same_environment.
  - now apply HandleInv_handleSubmit.
  - now apply HandleInv_handleSubmit.
  - apply HandleInv_same_environment; [assumption|]. cbn. split; [lia|reflexivity].
  - apply HandleInv_same_environment; [assumption|]. cbn. split; [lia|reflexivity].
  - apply HandleInv_same_environment; [assumption|]. cbn. split; [lia|reflexivity].
  - now apply HandleInv_tick.
  - now apply HandleInv_settle.
Qed.

Lemma invariants_run trace :
  forall w w', Inv w -> HandleInv w -> run w trace = Some w' -> Inv w' /\ HandleInv w'.
Proof.
  induction trace as [|ev rest IH]; cbn; intros w w' HI HH Hrun.
  - injection Hrun as <-. auto.
  - destruct (step w ev) as [w1|] eqn:Hstep; [|discriminate].
    eapply IH; [| |exact Hrun].
    + eapply Inv_step; eauto.
    + eapply HandleInv_step; eauto.
Qed.

Lemma invariants_reachable (w : World) : reachable w -> Inv w /\ HandleInv w.
Proof.
  intros [trace Hrun].
  eapply invariants_run; [apply Inv_initial | apply HandleInv_initial | exact Hrun].
Qed.


(** X1 (progress bound).  In every reachable state the progress cell is a
    multiple of ten between 0 and 90: the 100 written when the response
    arrives is overwritten by the [finally] block before the component comes
    to rest. *)
Theorem progress_stays_below_completion (w : World) :
  reachable w ->
  (0 <= uploadProgress (ui w) <= 90)%Z /\ (uploadProgress (ui w) mod 10 = 0)%Z.
Proof.
  intros Hr. destruct (@invariants_reachable w Hr) as [_ [_ _ _ Hp]]. exact Hp.
Qed.

Lemma reachable_after_twelve_ticks :
  reachable
    {| ui := {| selectedFile := Some scan1; isLoading := true; result := VNull;
                error := VNull; uploadProgress := 90 |};
       timers := [0%nat]; nextTimer := 1;
       inflight := [ {| body := scan1; progressInterval := 0 |} ] |}.
Proof. exists twelve_ticks. vm_compute. reflexivity. Defined.

Lemma progress_stays_below_completion_witness :
  (0 <= 90 <= 90)%Z /\ (90 mod 10 = 0)%Z.
Proof.
  exact (@progress_stays_below_completion _ reachable_after_twelve_ticks).
Defined.

(** ** Live intervals *)

Lemma step_interval_count (w w' : World) ev :
  Inv w -> HandleInv w -> step w ev = Some w' ->
  (List.length (timers w') + loading_count w
   = List.length (timers w) + rejections [ev] + loading_count w')%nat.
Proof.
  intros HI HH. unfold step, loading_count.
  destruct (enabled w ev) eqn:Hen; [|discriminate]. intros [= <-].
  assert (Hsubmit : isLoading (ui w) = false ->
            (List.length (timers (handleSubmit w)) + 0
             = List.length (timers w) + 0
               + (if isLoading (ui (handleSubmit w)) then 1 else 0))%nat).
  { intros Hl. unfold handleSubmit. destruct (selectedFile (ui w)); cbn; [lia|].
    rewrite Hl. lia. }
  destruct ev; cbn [react rejections].
  - unfold Upload.handleFileChange. destruct (Upload.first_file files); cbn; lia.
  - unfold Upload.handleDrop. destruct (Upload.first_file files) as [file|]; [|lia].
    destruct (Upload.is_image file); cbn; lia.
  - cbn in Hen. apply andb_prop in Hen as [_ Hl]. apply negb_true_iff in Hl.
    rewrite Hl at 1. now apply Hsubmit.
  - cbn in Hen. destruct (isLoading (ui w)) eqn:Hl.
    + destruct (inv_loading HI Hl) as (_ & Herr & _). rewrite Herr in Hen. discriminate.
    + now apply Hsubmit.
  - cbn. lia.
  - cbn. lia.
  - cbn. lia.
  - cbn. lia.
  - cbn in Hen. unfold settle.
    destruct (nth_error (inflight w) i) as [r|] eqn:Hnth; [|discriminate].
    destruct (@settle_only_request w _ _ HI Hnth) as (Hl & Hone & ->).
    rewrite Hl. destruct o as [data|err]; cbn.
    + pose proof (inv_held HH) as Hheld. rewrite Hone in Hheld.
      apply Forall_inv in Hheld.
      pose proof (@clearInterval_length _ _ (inv_distinct HH) Hheld) as Hlen.
      unfold clearInterval in Hlen. lia.
    + lia.
Qed.

Lemma run_interval_count trace :
  forall w w', Inv w -> HandleInv w -> run w trace = Some w' ->
  (List.length (timers w') + loading_count w
   = List.length (timers w) + rejections trace + loading_count w')%nat.
Proof.
  induction trace as [|ev rest IH]; cbn [run]; intros w w' HI HH Hrun.
  - injection Hrun as <-. cbn. lia.
  - destruct (step w ev) as [w1|] eqn:Hstep; [|discriminate].
    pose proof (@step_interval_count w w1 ev HI HH Hstep) as H1.
    pose proof (IH w1 w' (@Inv_step w ev w1 HI Hstep)
                  (@HandleInv_step w w1 ev HI HH Hstep) Hrun) as H2.
    assert (Hrej : rejections (ev :: rest) = (rejections [ev] + rejections rest)%nat).
    { destruct ev as [| | | | | | | |i [|]]; reflexivity. }
    rewrite Hrej. lia.
Qed.

(** X2 (live intervals).  After any sequence of events the number of live
    intervals is the number of submissions that were rejected so far, plus
    one while a submission is outstanding: a resolved submission cancels its
    interval, a rejected one leaves it running. *)
Theorem live_intervals_count (trace : list Event) (w : World) :
  run initial trace = Some w ->
  List.length (timers w)
  = (rejections trace + (if isLoading (ui w) then 1 else 0))%nat.
Proof.
  intros Hrun.
  pose proof (@run_interval_count trace initial w Inv_initial HandleInv_initial Hrun)
    as H.
  unfold loading_count in H. cbn in H. lia.
Qed.

Lemma live_intervals_count_witness :
  exists w,
    run initial two_failures_then_retry = Some w
    /\ List.length (timers w) = 3%nat.
Proof.
  eexists. split; [vm_compute; reflexivity|].
  refine (@live_intervals_count two_failures_then_retry _ _).
  vm_compute. reflexivity.
Defined.

(** X3 (success cancels its own interval).  When a request resolves in a
    reachable state, the interval started with it is live beforehand and
    cancelled afterwards, and every other interval is left as it was. *)
Theorem success_cancels_own_interval (w w' : World) (i : nat) (data : value) :
  reachable w ->
  step w (Settle i (Resolved data)) = Some w' ->
  exists r,
    inflight w = [r]
    /\ In (progressInterval r) (timers w)
    /\ ~ In (progressInterval r) (timers w')
    /\ (forall t, t <> progressInterval r -> (In t (timers w') <-> In t (timers w)))
    /\ S (List.length (timers w')) = List.length (timers w).
Proof.
  intros Hr Hstep. destruct (@invariants_reachable w Hr) as [HI HH].
  unfold step in Hstep.
  destruct (enabled w (Settle i (Resolved data))) eqn:Hen; [|discriminate].
  injection Hstep as <-. cbn in Hen. cbn [react]. unfold settle.
  destruct (nth_error (inflight w) i) as [r|] eqn:Hnth; [|discriminate].
  destruct (@settle_only_request w _ _ HI Hnth) as (_ & Hone & ->).
  exists r. unfold submit_fulfilled. cbn [timers].
  pose proof (inv_held HH) as Hheld. rewrite Hone in Hheld. apply Forall_inv in Hheld.
  split; [exact Hone|]. split; [exact Hheld|]. split; [|split].
  - rewrite clearInterval_In. tauto.
  - intros t Ht. rewrite clearInterval_In. tauto.
  - exact (@clearInterval_length _ _ (inv_distinct HH) Hheld).
Qed.

Lemma success_cancels_own_interval_witness :
  exists r,
    inflight submitting_scan1 = [r]
    /\ In (progressInterval r) (timers submitting_scan1).
Proof.
  destruct (@success_cancels_own_interval submitting_scan1 _ 0 (VObj [])
              reachable_submitting_scan1 eq_refl) as (r & H1 & H2 & _).
  exists r. split; assumption.
Defined.


(** ** What is on screen *)

(** X4 (one panel at a time).  In every reachable state at most one of the
    spinner, the error card and the care plan is rendered; while loading it
    is the spinner, showing a progress between 0 and 90. *)
Theorem at_most_one_panel (w : World) :
  reachable w ->
  (List.length (panels (ui w)) <= 1)%nat
  /\ (isLoading (ui w) = true ->
      exists progress,
        panels (ui w) = [LoadingSpinner progress "Processing your document with AI..."]
        /\ (0 <= progress <= 90)%Z
        /\ analyzeLabel (ui w) = "Analyzing Document...").
Proof.
  intros Hr. destruct (@invariants_reachable w Hr) as [HI HH].
  unfold panels, analyzeLabel. destruct (isLoading (ui w)) eqn:Hl.
  - destruct (inv_loading HI Hl) as (Hres & Herr & _). rewrite Hres, Herr. cbn.
    split; [lia|]. intros _. eexists. split; [reflexivity|].
    split; [apply (inv_progress HH) | reflexivity].
  - split; [|discriminate].
    destruct (inv_exclusive HI) as [H|H]; rewrite H; cbn.
    + destruct (truthy (error (ui w))); cbn; lia.
    + destruct (truthy (result (ui w))); cbn; lia.
Qed.

Lemma at_most_one_panel_witness :
  (List.length (panels (ui submitting_scan1)) <= 1)%nat.
Proof. exact (proj1 (@at_most_one_panel _ reachable_submitting_scan1)). Defined.

(** ** Retry *)

(** X5 (retry).  In a reachable state that shows an error while a document
    is selected, Try Again posts exactly one request, carrying that same
    document, starts one fresh interval, clears the error and enters the
    loading state. *)
Theorem retry_resubmits_the_selected_document (w : World) (file : File) :
  reachable w ->
  selectedFile (ui w) = Some file ->
  truthy (error (ui w)) = true ->
  exists w',
    step w ClickRetry = Some w'
    /\ inflight w' = [ {| body := file; progressInterval := nextTimer w |} ]
    /\ timers w' = nextTimer w :: timers w
    /\ ~ In (nextTimer w) (timers w)
    /\ selectedFile (ui w') = Some file
    /\ error (ui w') = VNull /\ result (ui w') = VNull
    /\ uploadProgress (ui w') = 0%Z
    /\ workflow (ui w') = Submitting.
Proof.
  intros Hr Hsel Herr. destruct (@invariants_reachable w Hr) as [HI HH].
  assert (Hl : isLoading (ui w) = false).
  { destruct (isLoading (ui w)) eqn:Hl; [|reflexivity].
    destruct (inv_loading HI Hl) as (_ & He & _). rewrite He in Herr. discriminate. }
  eexists. split.
  - unfold step. cbn [enabled]. rewrite Herr. reflexivity.
  - cbn [react]. unfold handleSubmit. rewrite Hsel. cbn.
    rewrite (inv_settled HI Hl). cbn.
    repeat split.
    intros Hin. pose proof (inv_issued HH) as Hi.
    rewrite Forall_forall in Hi. specialize (Hi _ Hin). lia.
Qed.

Lemma retry_resubmits_the_selected_document_witness :
  exists w',
    run initial [Browse [scan1]; ClickAnalyze; Settle 0 (Rejected too_large);
                 ClickRetry] = Some w'
    /\ inflight w' = [ {| body := scan1; progressInterval := 1 |} ].
Proof.
  destruct (@retry_resubmits_the_selected_document _ scan1
              reachable_after_rejection eq_refl eq_refl) as (w' & Hs & Hi & _).
  exists w'. split; [|exact Hi].
  cbn [run]. exact Hs.
Defined.

(** ** Reset while a submission is outstanding *)

(** X6 (reset does not cancel).  Removing the file while a submission is
    outstanding keeps the component loading, the request outstanding and its
    interval live; when the answer arrives it is still installed as the
    result, with no document selected. *)
Theorem reset_keeps_outstanding_request (w : World) (file : File) (data : value) :
  reachable w ->
  isLoading (ui w) = true ->
  selectedFile (ui w) = Some file ->
  exists w1 w2,
    step w ClickRemoveFile = Some w1
    /\ workflow (ui w1) = Submitting
    /\ inflight w1 = inflight w /\ timers w1 = timers w
    /\ selectedFile (ui w1) = None
    /\ step w1 (Settle 0 (Resolved data)) = Some w2
    /\ result (ui w2) = data
    /\ selectedFile (ui w2) = None
    /\ isLoading (ui w2) = false.
Proof.
  intros Hr Hl Hsel. destruct (@invariants_reachable w Hr) as [HI HH].
  destruct (inv_loading HI Hl) as (_ & _ & Hlen).
  destruct (inflight w) as [|r [|r' rest]] eqn:Hin; try discriminate.
  exists (handleReset w), (settle 0 (Resolved data) (handleReset w)).
  split.
  - unfold step. cbn [enabled]. unfold has_file. rewrite Hsel. reflexivity.
  - unfold workflow, step, settle. cbn. rewrite Hl, Hin. cbn.
    repeat split.
    unfold settle. cbn. rewrite Hin. reflexivity.
Qed.

Lemma reset_keeps_outstanding_request_witness :
  exists w2,
    run submitting_scan1 [ClickRemoveFile; Settle 0 (Resolved lisinopril_plan)] = Some w2
    /\ result (ui w2) = lisinopril_plan
    /\ selectedFile (ui w2) = None.
Proof.
  destruct (@reset_keeps_outstanding_request _ scan1 lisinopril_plan
              reachable_submitting_scan1 eq_refl eq_refl)
    as (w1 & w2 & H1 & _ & _ & _ & _ & H2 & Hres & Hsel & _).
  exists w2. split; [|split; assumption].
  cbn [run]. rewrite H1. rewrite H2. reflexivity.
Defined.

(** ** How a rejection ends *)

(** The text of the error card around its message. *)
Lemma ErrorMessage_text (msg : value) (text : string) :
  Display.value_text msg = Some text ->
  Display.textContent (Display.ErrorMessage msg)
  = Some ("⚠️Something went wrong" ++ text
          ++ "Try AgainStart OverCommon solutions:"
          ++ "Make sure your file is a clear image (JPG, PNG, etc.)"
          ++ "Check that the file size is under 10MB"
          ++ "Ensure the text in the image is readable"
          ++ "Try a different image if the current one is blurry").
Proof.
  intros Htext. unfold Display.ErrorMessage, Display.el, Display.el0.
  cbn. rewrite Htext. cbn.
  rewrite !StringProofs.append_nil_r. reflexivity.
Qed.

Lemma ErrorMessage_mounts (msg : value) :
  Display.mounts (Display.ErrorMessage msg) = Display.valid_child msg.
Proof. cbn. now rewrite !andb_true_r. Qed.

(** X7 (a rejection with an error object).  When the outstanding request
    is rejected with any value other than [null] or [undefined], the [catch]
    block computes a truthy message and stores it; the component stops
    loading, keeps the selected document and has nothing in flight.  The
    error card mounts exactly when the message is a valid child.  When it
    is - a string, a number, a boolean or an array of these - the state is
    Failed, the card is the one panel, it shows the message, and Try Again
    is available; a message that is an object, or an array holding one,
    cannot be mounted. *)
Theorem rejection_shows_error (w : World) (err : value) :
  reachable w ->
  isLoading (ui w) = true ->
  nullish err = false ->
  exists w' msg,
    step w (Settle 0 (Rejected err)) = Some w'
    /\ errorMessage err = Ok msg
    /\ error (ui w') = msg /\ truthy msg = true
    /\ isLoading (ui w') = false /\ result (ui w') = VNull
    /\ selectedFile (ui w') = selectedFile (ui w)
    /\ inflight w' = []
    /\ Display.mounts (Display.ErrorMessage msg) = Display.valid_child msg
    /\ (Display.valid_child msg = true ->
        workflow (ui w') = Failed
        /\ panels (ui w') = [ErrorMessage msg]
        /\ step w' ClickRetry = Some (handleSubmit w')
        /\ forall text,
             Display.value_text msg = Some text ->
             Display.textContent (Display.ErrorMessage msg)
             = Some ("⚠️Something went wrong" ++ text
                     ++ "Try AgainStart OverCommon solutions:"
                     ++ "Make sure your file is a clear image (JPG, PNG, etc.)"
                     ++ "Check that the file size is under 10MB"
                     ++ "Ensure the text in the image is readable"
                     ++ "Try a different image if the current one is blurry")).
Proof.
  intros Hr Hl Hn. destruct (@invariants_reachable w Hr) as [HI HH].
  destruct (inv_loading HI Hl) as (Hres & _ & Hlen).
  destruct (inflight w) as [|r [|r' rest]] eqn:Hin; try discriminate.
  pose proof (errorMessage_throws err) as Ht. rewrite Hn in Ht.
  destruct (errorMessage err) as [msg|] eqn:Hmsg; [|discriminate].
  pose proof (@errorMessage_truthy err msg Hmsg) as Htr.
  exists (settle 0 (Rejected err) w), msg.
  split; [unfold step; cbn; now rewrite Hin|].
  split; [reflexivity|].
  unfold settle. rewrite Hin. cbn [nth_error remove_nth].
  unfold submit_rejected. rewrite Hmsg.
  cbn [ui with_ui finally error isLoading result selectedFile inflight].
  split; [reflexivity|]. split; [exact Htr|].
  split; [reflexivity|]. split; [exact Hres|].
  do 2 (split; [reflexivity|]). split; [apply ErrorMessage_mounts|].
  intros Hvalid. split; [|split; [|split]].
  - unfold workflow. cbn. now rewrite Hres, Htr.
  - unfold panels. cbn. now rewrite Hres, Htr.
  - unfold step. cbn [enabled ui with_ui finally error]. now rewrite Htr.
  - intros text. apply ErrorMessage_text.
Qed.

Lemma rejection_shows_error_witness :
  exists w',
    step submitting_scan1 (Settle 0 (Rejected timed_out)) = Some w'
    /\ error (ui w')
       = VStr "Unable to connect to the server. Please check your connection."
    /\ step w' ClickRetry = Some (handleSubmit w').
Proof.
  destruct (@rejection_shows_error _ timed_out reachable_submitting_scan1
              eq_refl eq_refl)
    as (w' & msg & Hs & Hm & He & _ & _ & _ & _ & _ & _ & Hvalid).
  vm_compute in Hm. injection Hm as <-.
  exists w'. split; [exact Hs|]. split; [exact He|].
  exact (proj1 (proj2 (proj2 (Hvalid eq_refl)))).
Defined.

(** The detail of a validation error is a list of objects: the [catch]
    block stores it as the message, and the error card cannot mount. *)
Example validation_error_cannot_be_shown :
  exists msg,
    errorMessage validation_error = Ok msg
    /\ truthy msg = true
    /\ Display.valid_child msg = false
    /\ Display.mounts (Display.ErrorMessage msg) = false
    /\ Display.value_text msg = None.
Proof.
  eexists. split; [vm_compute; reflexivity|].
  repeat split; vm_compute; reflexivity.
Qed.

(** X8 (a rejection with no value is silent).  The [catch] block raises
    exactly when the rejection value is [null] or [undefined]; the component
    then stops loading without showing any error. *)
Theorem rejection_without_value_is_silent (w : World) (err : value) :
  throws (errorMessage err) = nullish err
  /\ (reachable w ->
      isLoading (ui w) = true ->
      nullish err = true ->
      exists w',
        step w (Settle 0 (Rejected err)) = Some w'
        /\ isLoading (ui w') = false
        /\ error (ui w') = VNull /\ result (ui w') = VNull
        /\ panels (ui w') = []
        /\ selectedFile (ui w') = selectedFile (ui w)).
Proof.
  split; [apply errorMessage_throws|].
  intros Hr Hl Hn. destruct (@invariants_reachable w Hr) as [HI HH].
  destruct (inv_loading HI Hl) as (Hres & Herr & Hlen).
  destruct (inflight w) as [|r [|r' rest]] eqn:Hin; try discriminate.
  pose proof (errorMessage_throws err) as Ht. rewrite Hn in Ht.
  destruct (errorMessage err) as [msg|] eqn:Hmsg; [discriminate|].
  exists (settle 0 (Rejected err) w).
  split; [unfold step; cbn; now rewrite Hin|].
  unfold settle. rewrite Hin. cbn. unfold submit_rejected. rewrite Hmsg. cbn.
  unfold panels. cbn. rewrite Hres, Herr. cbn.
  repeat split.
Qed.

Lemma rejection_without_value_is_silent_witness :
  exists w',
    step submitting_scan1 (Settle 0 (Rejected VUndefined)) = Some w'
    /\ panels (ui w') = [].
Proof.
  destruct (proj2 (@rejection_without_value_is_silent submitting_scan1 VUndefined)
              reachable_submitting_scan1 eq_refl eq_refl)
    as (w' & Hs & _ & _ & _ & Hp & _).
  exists w'. split; assumption.
Defined.

End AppExtras.

(* ================================================================== *)
(** * Further properties of the care-plan rendering *)
(* ================================================================== *)

Module DisplayExtras.

Import JS Display Spec Samples NumberProofs DisplayProofs StringProofs.
Open Scope string_scope.

(** ** Errors stay within their tab *)

Lemma throws_bind A B (r : result A) (k : A -> result B) :
  throws (bind r k)
  = match r with
    | Ok a => throws (k a)
    | Throw _ => true
    end.
Proof. destruct r; reflexivity. Qed.

Lemma tabContent_unknown (name : string) (data : value) :
  (forall tab, tab_name tab <> name) ->
  tabContent name data
  = Ok (el "div" "tab-content"
          [ Expr (VBool false); Expr (VBool false); Expr (VBool false);
            Expr (VBool false); Expr (VBool false) ]).
Proof.
  intros Hname. unfold tabContent, tabPane.
  assert (H : forall tab, String.eqb name (tab_name tab) = false).
  { intros tab. apply String.eqb_neq. intros ->. now apply (Hname tab). }
  pose proof (H TabOverview) as H1. pose proof (H TabMedications) as H2.
  pose proof (H TabActions) as H3. pose proof (H TabEducation) as H4.
  pose proof (H TabResources) as H5. cbn [tab_name] in *.
  rewrite H1, H2, H3, H4, H5. reflexivity.
Qed.

(** X9 (errors stay within their tab).  The body of a tab raises exactly
    when one of the renderers of that tab's composition raises: a payload
    that breaks one section leaves every tab without that section intact.
    For a tab name other than the five, the body renders no pane and never
    raises. *)
Theorem tab_raises_with_its_sections (data : value) :
  (forall tab,
     throws (tabContent (tab_name tab) data)
     = existsb (fun s => throws (render s data)) (composition tab))
  /\ (forall name,
        (forall tab, tab_name tab <> name) ->
        tabContent name data
        = Ok (el "div" "tab-content"
                [ Expr (VBool false); Expr (VBool false); Expr (VBool false);
                  Expr (VBool false); Expr (VBool false) ])).
Proof.
  split.
  - intros tab. unfold tabContent, tabPane.
    destruct tab; cbn [tab_name String.eqb Ascii.eqb Bool.eqb composition existsb render];
      cbn [bind].
    + destruct (renderMedications data); cbn; [|reflexivity].
      destruct (renderActionItems data); cbn; [|reflexivity].
      destruct (renderLifestyleTips data); reflexivity.
    + destruct (renderMedications data); reflexivity.
    + destruct (renderActionItems data); cbn; [|reflexivity].
      destruct (renderFollowUp data); cbn; [|reflexivity].
      destruct (renderEmergencyContacts data); reflexivity.
    + destruct (renderSimplifiedTerms data); cbn; [|reflexivity].
      destruct (renderLifestyleTips data); reflexivity.
    + destruct (renderCostSavings data); cbn; [|reflexivity].
      destruct (renderSupportResources data); reflexivity.
  - intros name Hname. now apply tabContent_unknown.
Qed.

Example partial_saving_breaks_only_the_resources_tab :
  map (fun tab => throws (tabContent (tab_name tab) plan_with_partial_saving)) all_tabs
  = [false; false; false; false; true].
Proof. vm_compute. reflexivity. Qed.

(** ** The tab bar and the tab body agree *)

Lemma tab_name_cases (a : string) :
  (exists tab, a = tab_name tab) \/ (forall tab, tab_name tab <> a).
Proof.
  destruct (String.eqb a "overview") eqn:E1;
    [apply String.eqb_eq in E1; left; now exists TabOverview|].
  destruct (String.eqb a "medications") eqn:E2;
    [apply String.eqb_eq in E2; left; now exists TabMedications|].
  destruct (String.eqb a "actions") eqn:E3;
    [apply String.eqb_eq in E3; left; now exists TabActions|].
  destruct (String.eqb a "education") eqn:E4;
    [apply String.eqb_eq in E4; left; now exists TabEducation|].
  destruct (String.eqb a "resources") eqn:E5;
    [apply String.eqb_eq in E5; left; now exists TabResources|].
  right. intros tab Heq. subst a.
  destruct tab; cbn in *; discriminate.
Qed.

(** X10 (bar and body agree).  For every value of [activeTab], the buttons
    carrying the [active] class are those whose click selects [activeTab];
    whenever the tab body renders, a pane is rendered in exactly the slots
    of the active buttons; and at most one button is active. *)
Theorem tab_bar_matches_tab_body (activeTab : string) (data : value) :
  button_flags (tabs activeTab)
  = map (fun target => match target with
                       | VStr name => String.eqb activeTab name
                       | _ => false
                       end) (button_targets (tabs activeTab))
  /\ button_targets (tabs activeTab) = map (fun tab => VStr (tab_name tab)) all_tabs
  /\ (count_occ bool_dec (button_flags (tabs activeTab)) true <= 1)%nat
  /\ (forall body,
        tabContent activeTab data = Ok body ->
        pane_flags body = button_flags (tabs activeTab)).
Proof.
  split; [|split; [reflexivity|]].
  { unfold tabs, tabButton, button_flags, button_targets, el. cbn [map lookup String.eqb Ascii.eqb Bool.eqb].
    repeat match goal with
           | |- context [String.eqb activeTab ?n] => destruct (String.eqb activeTab n)
           end; reflexivity. }
  destruct (tab_name_cases activeTab) as [[tab ->] | Hnone].
  - split.
    + destruct tab; vm_compute; lia.
    + intros body H. unfold tabContent, tabPane in H.
      destruct tab; cbn [tab_name String.eqb Ascii.eqb Bool.eqb] in H; cbn [bind] in H.
      * section_result H (renderMedications data).
        section_result H (renderActionItems data).
        section_result H (renderLifestyleTips data).
        injection H as <-. reflexivity.
      * section_result H (renderMedications data).
        injection H as <-. reflexivity.
      * section_result H (renderActionItems data).
        section_result H (renderFollowUp data).
        section_result H (renderEmergencyContacts data).
        injection H as <-. reflexivity.
      * section_result H (renderSimplifiedTerms data).
        section_result H (renderLifestyleTips data).
        injection H as <-. reflexivity.
      * section_result H (renderCostSavings data).
        section_result H (renderSupportResources data).
        injection H as <-. reflexivity.
  - assert (H : forall tab, String.eqb activeTab (tab_name tab) = false).
    { intros tab. apply String.eqb_neq. intros ->. now apply (Hnone tab). }
    pose proof (H TabOverview) as H1. pose proof (H TabMedications) as H2.
    pose proof (H TabActions) as H3. pose proof (H TabEducation) as H4.
    pose proof (H TabResources) as H5. cbn [tab_name] in *.
    split.
    + unfold tabs, tabButton, button_flags, el. cbn [map].
      rewrite H1, H2, H3, H4, H5. cbn. lia.
    + intros body Hb.
      rewrite (@tabContent_unknown activeTab data Hnone) in Hb.
      injection Hb as <-.
      unfold tabs, tabButton, button_flags, el. cbn [map].
      rewrite H1, H2, H3, H4, H5. reflexivity.
Qed.


(** ** Sections over an array of entries *)

Lemma mapM_from_total A B (f : A -> nat -> result B) (g : A -> B) :
  (forall a i, f a i = Ok (g a)) ->
  forall l i, mapM_from f i l = Ok (map g l).
Proof.
  intros Hf. induction l as [|a l IH]; intros i; [reflexivity|].
  cbn. rewrite Hf. cbn. rewrite IH. reflexivity.
Qed.

Lemma mapM_from_throws A B (f : A -> nat -> result B) (p : A -> bool) :
  (forall a i, throws (f a i) = p a) ->
  forall l i, throws (mapM_from f i l) = existsb p l.
Proof.
  intros Hf. induction l as [|a l IH]; intros i; [reflexivity|].
  cbn. rewrite <- (Hf a i). destruct (f a i) as [b|]; cbn; [|reflexivity].
  rewrite <- (IH (S i)). destruct (mapM_from f (S i) l); reflexivity.
Qed.


Lemma get_opt_array v k items :
  get_opt v k = VArr items -> nullish v = false /\ prop v k = VArr items.
Proof.
  unfold get_opt. destruct (nullish v); [discriminate|]. auto.
Qed.

Lemma array_guard items :
  negb (truthy (get_opt (VArr items) "length"))
  = match items with [] => true | _ => false end.
Proof.
  rewrite get_opt_prop by reflexivity. rewrite array_length_truthy.
  now destruct items.
Qed.

(** A care-plan section over an array: nothing for the empty array, the
    mapped entries under the root otherwise. *)
Lemma guarded_section_array B key cls (f : value -> nat -> result B) build data items :
  in_care_plan data key = VArr items ->
  guarded_section key cls f build data
  = match items with
    | [] => Ok None
    | _ => bind (mapM_from f 0 items)
             (fun entries => Ok (Some (el "div" cls (build entries))))
    end.
Proof.
  unfold in_care_plan, guarded_section. intros H.
  destruct (get_opt_array _ _ H) as [Hplan Hprop].
  assert (Hdata : nullish data = false).
  { apply (@get_opt_some data "care_plan").
    destruct (get_opt data "care_plan"); try reflexivity; discriminate. }
  rewrite (@get_opt_prop data "care_plan" Hdata) in *.
  rewrite (@get_some data "care_plan" Hdata). cbn [bind].
  rewrite H, array_guard.
  destruct items as [|item rest]; [reflexivity|].
  rewrite (@get_some _ key Hplan), Hprop. reflexivity.
Qed.

(** The same for the two sections under [agent_results.resource.result]. *)
Lemma resource_path data key items :
  in_resource_result data key = VArr items ->
  get data "agent_results" = Ok (prop data "agent_results")
  /\ get_opt (get_opt (get_opt (prop data "agent_results") "resource") "result") key
     = VArr items
  /\ get (prop data "agent_results") "resource"
     = Ok (prop (prop data "agent_results") "resource")
  /\ get (prop (prop data "agent_results") "resource") "result"
     = Ok (prop (prop (prop data "agent_results") "resource") "result")
  /\ nullish (prop (prop (prop data "agent_results") "resource") "result") = false
  /\ prop (prop (prop (prop data "agent_results") "resource") "result") key
     = VArr items.
Proof.
  unfold in_resource_result. intros H.
  destruct (get_opt_array _ _ H) as [H3 Hprop].
  pose proof (@get_opt_some _ _ H3) as H2.
  pose proof (@get_opt_some _ _ H2) as H1.
  pose proof (@get_opt_some _ _ H1) as H0.
  rewrite (@get_opt_prop data "agent_results" H0) in *.
  rewrite (@get_opt_prop _ "resource" H1) in *.
  rewrite (@get_opt_prop _ "result" H2) in *.
  rewrite (@get_some data "agent_results" H0).
  rewrite (@get_some _ "resource" H1), (@get_some _ "result" H2).
  auto 10.
Qed.

Lemma listItem_total cls (item : value) (i : nat) :
  listItem cls item i = Ok (el "li" cls [Expr item]).
Proof. reflexivity. Qed.

(** X11 (plain lists accept any entries).  When the lifestyle tips, the
    follow-up instructions or the emergency contacts are a non-empty array,
    the section renders whatever the entries are, with one list item per
    entry, in order, each holding its entry. *)
Theorem plain_list_sections_render_every_entry
    (s : PlanSection) (data : value) (items : list value) :
  In s [LifestyleTips; FollowUpInstructions; EmergencyContacts] ->
  backing s data = VArr items ->
  items <> [] ->
  exists section item_class,
    render s data = Ok (Some section)
    /\ cards_of section = map (fun item => el "li" item_class [Expr item]) items.
Proof.
  intros Hs Hback Hne.
  destruct Hs as [<- | [<- | [<- | []]]]; cbn [render backing] in *.
  - rewrite renderLifestyleTips_guarded, (@guarded_section_array _ _ _ _ _ _ _ Hback).
    destruct items as [|item rest]; [contradiction|].
    rewrite (@mapM_from_total _ _ _ _ (listItem_total "tip-item")). cbn [bind].
    do 2 eexists. split; reflexivity.
  - rewrite renderFollowUp_guarded, (@guarded_section_array _ _ _ _ _ _ _ Hback).
    destruct items as [|item rest]; [contradiction|].
    rewrite (@mapM_from_total _ _ _ _ (listItem_total "followup-item")). cbn [bind].
    do 2 eexists. split; reflexivity.
  - rewrite renderEmergencyContacts_guarded, (@guarded_section_array _ _ _ _ _ _ _ Hback).
    destruct items as [|item rest]; [contradiction|].
    rewrite (@mapM_from_total _ _ _ _ (listItem_total "contact-item")). cbn [bind].
    do 2 eexists. split; reflexivity.
Qed.

Lemma plain_list_sections_render_every_entry_witness :
  exists section item_class,
    renderLifestyleTips plan_without_medications = Ok (Some section)
    /\ cards_of section = [el "li" item_class [Expr (VStr "Walk daily")]].
Proof.
  refine (@plain_list_sections_render_every_entry LifestyleTips
            plan_without_medications [VStr "Walk daily"] _ _ _).
  - left. reflexivity.
  - reflexivity.
  - discriminate.
Defined.










(** ** The cost-savings section *)

Lemma array_map_callback_total B (v : value) (g : value -> B) :
  throws (array_map v (fun item (_ : nat) => Ok (g item))) = negb (is_array v).
Proof.
  destruct v; try reflexivity. cbn.
  rewrite (@mapM_from_total _ _ (fun item (_ : nat) => Ok (g item)) g); reflexivity.
Qed.

Lemma savingsCard_throws (saving : value) (i : nat) :
  throws (savingsCard saving i)
  = nullish saving
    || negb (is_array (prop saving "savings_tips"))
    || negb (is_array (prop saving "discount_programs")).
Proof.
  unfold savingsCard, get. destruct (nullish saving); [reflexivity|].
  cbn [bind orb].
  pose proof (array_map_callback_total (prop saving "savings_tips")
                (fun tip => el0 "li" [Expr tip])) as Htips.
  pose proof (array_map_callback_total (prop saving "discount_programs")
                (fun program => el "span" "program-tag" [Expr program])) as Hprog.
  destruct (truthy (prop saving "generic_available")); cbn [bind];
    rewrite throws_bind;
    (destruct (array_map (prop saving "savings_tips") _) as [tips|];
       cbn in Htips; rewrite <- Htips; [|reflexivity]);
    cbn [orb]; rewrite throws_bind;
    destruct (array_map (prop saving "discount_programs") _) as [programs|];
    cbn in Hprog; rewrite <- Hprog; reflexivity.
Qed.

Lemma savingsTotal_throws (total : value) :
  throws (savingsTotal (or_else total (VNum (S754_zero false))))
  = truthy total && negb (is_number total).
Proof.
  unfold savingsTotal, or_else. destruct (truthy total) eqn:Ht.
  - destruct total; cbn in *; try reflexivity; discriminate.
  - reflexivity.
Qed.

(** X13 (when the cost-savings section raises).  A savings card raises
    exactly when its entry is [null] or [undefined] or lacks an array of
    savings tips or of discount programs.  Over a non-empty array of entries
    the section raises exactly when one of its cards does, or when the total
    is present and truthy without being a number; a total that is absent or
    zero is shown as 0. *)
Theorem cost_savings_raises_exactly_when (data : value) (items : list value) :
  (forall saving i,
     throws (savingsCard saving i)
     = nullish saving
       || negb (is_array (prop saving "savings_tips"))
       || negb (is_array (prop saving "discount_programs")))
  /\ (backing CostSavings data = VArr items ->
      items <> [] ->
      throws (renderCostSavings data)
      = (truthy (in_resource_result data "total_potential_savings")
         && negb (is_number (in_resource_result data "total_potential_savings")))
        || existsb (fun saving => throws (savingsCard saving 0)) items).
Proof.
  split; [apply savingsCard_throws|].
  cbn [backing]. intros H Hne.
  destruct (resource_path _ _ H) as (Hget & Hguard & Hres & Hresult & Hnn & Hprop).
  unfold renderCostSavings. rewrite Hget. cbn [bind].
  rewrite Hguard, array_guard.
  destruct items as [|item rest]; [contradiction|].
  rewrite Hres. cbn [bind]. rewrite Hresult. cbn [bind].
  rewrite !(@get_some (prop (prop (prop data "agent_results") "resource") "result")
              _ Hnn).
  cbn [bind]. rewrite Hprop.
  assert (Htotal : in_resource_result data "total_potential_savings"
                   = prop (prop (prop (prop data "agent_results") "resource") "result")
                       "total_potential_savings").
  { unfold in_resource_result.
    assert (H0 : nullish data = false).
    { destruct (nullish data) eqn:E; [|reflexivity].
      unfold get in Hget. rewrite E in Hget. discriminate. }
    assert (H1 : nullish (prop data "agent_results") = false).
    { destruct (nullish (prop data "agent_results")) eqn:E; [|reflexivity].
      unfold get in Hres. rewrite E in Hres. discriminate. }
    assert (H2 : nullish (prop (prop data "agent_results") "resource") = false).
    { destruct (nullish (prop (prop data "agent_results") "resource")) eqn:E;
        [|reflexivity].
      unfold get in Hresult. rewrite E in Hresult. discriminate. }
    rewrite (@get_opt_prop data "agent_results" H0).
    rewrite (@get_opt_prop _ "resource" H1), (@get_opt_prop _ "result" H2).
    now rewrite (@get_opt_prop _ "total_potential_savings" Hnn). }
  rewrite Htotal, <- savingsTotal_throws.
  rewrite throws_bind.
  destruct (savingsTotal _) as [heading|]; [|reflexivity]. cbn [orb].
  rewrite throws_bind. cbn [array_map].
  assert (Hcard : forall a i, throws (savingsCard a i) = throws (savingsCard a 0))
    by (intros a i; now rewrite !savingsCard_throws).
  rewrite <- (@mapM_from_throws _ _ savingsCard
                (fun saving => throws (savingsCard saving 0)) Hcard (item :: rest) 0).
  destruct (mapM_from savingsCard 0 (item :: rest)); reflexivity.
Qed.

Lemma cost_savings_raises_exactly_when_witness :
  throws (renderCostSavings plan_with_partial_saving) = true.
Proof.
  rewrite (proj2 (@cost_savings_raises_exactly_when plan_with_partial_saving
                    [partial_saving]) eq_refl).
  - vm_compute. reflexivity.
  - discriminate.
Defined.

(** ** The header line *)

(** X14 (confidence defaults to zero).  When the confidence score is
    missing, [null], zero, [NaN], [false] or the empty string, the header
    reads "Confidence: 0%". *)
Theorem missing_confidence_reads_zero (data : value) :
  nullish data = false ->
  truthy (prop data "confidence_score") = false ->
  exists percent,
    confidencePercent data = Ok (Some percent)
    /\ textContent (confidenceScore percent) = Some "Confidence: 0%".
Proof.
  intros Hdata Hfalsy. unfold confidencePercent.
  rewrite (@get_some data "confidence_score" Hdata). cbn [bind].
  unfold or_else. rewrite Hfalsy. cbn [ToNumber].
  eexists. split; [reflexivity|]. vm_compute. reflexivity.
Qed.

Lemma missing_confidence_reads_zero_witness :
  exists percent,
    confidencePercent plan_without_medications = Ok (Some percent)
    /\ textContent (confidenceScore percent) = Some "Confidence: 0%".
Proof.
  exact (@missing_confidence_reads_zero plan_without_medications eq_refl eq_refl).
Defined.

(** X15 (processing time).  The processing-time line raises exactly when
    [processing_time_seconds] is present and is not a number (a numeric
    string included); when it is missing or [null] the line reads
    "Processed in s". *)
Theorem processing_time_needs_a_number (data : value) :
  nullish data = false ->
  throws (processingTime data)
  = negb (nullish (prop data "processing_time_seconds"))
    && negb (is_number (prop data "processing_time_seconds"))
  /\ (nullish (prop data "processing_time_seconds") = true ->
      exists span,
        processingTime data = Ok span
        /\ textContent span = Some "Processed in s").
Proof.
  intros Hdata. unfold processingTime, processingSeconds.
  rewrite (@get_some data "processing_time_seconds" Hdata). cbn [bind].
  destruct (prop data "processing_time_seconds") eqn:Hv; cbn;
    (split; [reflexivity|]); intros Hn; try discriminate;
    eexists; split; reflexivity.
Qed.

Lemma processing_time_needs_a_number_witness :
  throws (processingTime
            (VObj [("processing_time_seconds", VStr "3.2")])) = true.
Proof.
  exact (proj1 (@processing_time_needs_a_number
                  (VObj [("processing_time_seconds", VStr "3.2")]) eq_refl)).
Defined.


(** ** The medication card *)

(** X16 (a zero is not hidden).  The text of a medication card whose name,
    dosage, frequency and instructions are strings: the quantity and the
    refills get their labelled line when truthy, and are printed bare
    otherwise, so that a count of 0 shows as a stray "0" and a missing count
    as nothing. *)
Theorem medication_card_text (med : value) (index : nat)
    (n d f i tq tr : string) :
  nullish med = false ->
  prop med "name" = VStr n ->
  prop med "dosage" = VStr d ->
  prop med "frequency" = VStr f ->
  prop med "instructions" = VStr i ->
  value_text (prop med "quantity") = Some tq ->
  value_text (prop med "refills") = Some tr ->
  (exists card,
     medicationCard med index = Ok card
     /\ textContent card
        = Some (n ++ d ++ "Frequency: " ++ f ++ "Instructions: " ++ i
                ++ (if truthy (prop med "quantity")
                    then "Quantity: " ++ tq ++ " tablets" else tq)
                ++ (if truthy (prop med "refills")
                    then "Refills: " ++ tr ++ " remaining" else tr)))
  /\ (forall sign, value_text (VNum (S754_zero sign)) = Some "0")
  /\ value_text VUndefined = Some "".
Proof.
  intros Hmed Hn Hd Hf Hi Hq Hr. split; [|split; reflexivity].
  unfold medicationCard.
  rewrite !(@get_some med _ Hmed). cbn [bind]. rewrite Hn, Hd, Hf, Hi.
  eexists. split; [reflexivity|].
  unfold and_then.
  destruct (truthy (prop med "quantity")), (truthy (prop med "refills"));
    cbn; rewrite ?Hq, ?Hr; cbn; rewrite ?append_nil_r, ?append_assoc; cbn;
    reflexivity.
Qed.

Lemma medication_card_text_witness :
  exists card,
    medicationCard no_refills_left 0 = Ok card
    /\ textContent card
       = Some ("Amoxicillin" ++ "500 MG" ++ "Frequency: " ++ "Three times daily"
               ++ "Instructions: " ++ "Finish the course" ++ "" ++ "0").
Proof.
  exact (proj1 (@medication_card_text no_refills_left 0
                  "Amoxicillin" "500 MG" "Three times daily" "Finish the course"
                  "" "0" eq_refl eq_refl eq_refl eq_refl eq_refl eq_refl eq_refl)).
Defined.

(** ** Fixed-point amounts *)

Lemma only_digits_append (a b : string) :
  only_digits (a ++ b) = only_digits a && only_digits b.
Proof.
  induction a as [|c a IH]; cbn [append only_digits]; [reflexivity|].
  now rewrite IH, andb_assoc.
Qed.

Lemma only_digits_zeros (n : nat) : only_digits (zeros n) = true.
Proof. induction n as [|n IH]; [reflexivity|]. cbn [zeros only_digits]. now rewrite IH. Qed.

Lemma only_digits_substring (s : string) :
  only_digits s = true -> forall n m, only_digits (substring n m s) = true.
Proof.
  induction s as [|c s IH]; intros H n m.
  - destruct n, m; reflexivity.
  - cbn [only_digits] in H. apply andb_prop in H as [Hc Hs].
    destruct n as [|n]; cbn [substring].
    + destruct m as [|m]; [reflexivity|]. cbn [only_digits].
      now rewrite Hc, IH.
    + now apply IH.
Qed.

Lemma digit_char_is_digit (z : Z) :
  let c := digit_char (z mod 10) in
  Nat.leb 48 (nat_of_ascii c) && Nat.leb (nat_of_ascii c) 57 = true.
Proof.
  cbn zeta. unfold digit_char.
  pose proof (Z.mod_pos_bound z 10 eq_refl) as Hb.
  rewrite nat_ascii_embedding by lia.
  apply andb_true_intro. split; apply Nat.leb_le; lia.
Qed.

Lemma only_digits_digits_fuel (fuel : nat) :
  forall z acc, only_digits acc = true -> only_digits (digits_fuel fuel z acc) = true.
Proof.
  induction fuel as [|fuel IH]; intros z acc Hacc; [exact Hacc|].
  cbn [digits_fuel].
  assert (H : only_digits (String (digit_char (z mod 10)) acc) = true).
  { cbn [only_digits]. now rewrite digit_char_is_digit, Hacc. }
  destruct (z <? 10)%Z; [exact H | now apply IH].
Qed.

Lemma only_digits_digits (z : Z) : only_digits (digits z) = true.
Proof. unfold digits. now apply only_digits_digits_fuel. Qed.

Lemma place_point_shape (n : Z) (f : nat) :
  exists a b,
    place_point n (S f) = a ++ "." ++ b
    /\ String.length b = S f
    /\ (1 <= String.length a)%nat
    /\ only_digits a = true /\ only_digits b = true.
Proof.
  unfold place_point.
  set (s := pad_left (S (S f)) (digits n)).
  assert (Hs : (S (S f) <= String.length s)%nat).
  { unfold s, pad_left. rewrite length_append, length_zeros. lia. }
  assert (Hd : only_digits s = true).
  { unfold s, pad_left.
    now rewrite only_digits_append, only_digits_zeros, only_digits_digits. }
  exists (substring 0 (String.length s - S f) s),
         (substring (String.length s - S f) (S f) s).
  split; [reflexivity|].
  rewrite !length_substring by lia.
  repeat split; try lia; now apply only_digits_substring.
Qed.

(** X17 (amounts carry two decimals).  For a total that is a finite number
    of magnitude below 10^21, the savings heading reads the dollar sign, an
    optional minus sign, at least one digit, a point and exactly two more
    digits. *)
Theorem savings_total_has_two_decimals (x : number) :
  (x = S754_zero false \/ x = S754_zero true
   \/ exists s m e, x = S754_finite s m e /\ below_1e21 m e = true) ->
  exists heading sign a b,
    savingsTotal (VNum x) = Ok heading
    /\ textContent heading
       = Some ("Potential Annual Savings: $" ++ sign ++ a ++ "." ++ b)
    /\ (sign = "" \/ sign = "-")
    /\ (1 <= String.length a)%nat /\ only_digits a = true
    /\ String.length b = 2%nat /\ only_digits b = true.
Proof.
  intros Hx. unfold savingsTotal. cbn [call_toFixed bind].
  assert (Hfix : exists sign a b,
            toFixed x 2 = VStr (sign ++ a ++ "." ++ b)
            /\ (sign = "" \/ sign = "-")
            /\ (1 <= String.length a)%nat /\ only_digits a = true
            /\ String.length b = 2%nat /\ only_digits b = true).
  { destruct (place_point_shape 0 1) as (a0 & b0 & H0 & Hb0 & Ha0 & Hda0 & Hdb0).
    destruct Hx as [-> | [-> | (s & m & e & -> & Hlt)]].
    - exists "", a0, b0. cbn [toFixed]. rewrite H0. auto 10.
    - exists "", a0, b0. cbn [toFixed]. rewrite H0. auto 10.
    - destruct (place_point_shape (scaled_round m e 2) 1)
        as (a & b & H & Hb & Ha & Hda & Hdb).
      exists (if s then "-" else ""), a, b. cbn [toFixed]. rewrite Hlt, H.
      split; [reflexivity|]. split; [destruct s; auto | auto 10]. }
  destruct Hfix as (sign & a & b & Hfix & Hrest).
  rewrite Hfix. eexists. exists sign, a, b.
  split; [reflexivity|]. split; [|exact Hrest].
  cbn. now rewrite append_nil_r.
Qed.

Lemma savings_total_has_two_decimals_witness :
  exists heading sign a b,
    savingsTotal (VNum (S754_zero false)) = Ok heading
    /\ textContent heading
       = Some ("Potential Annual Savings: $" ++ sign ++ a ++ "." ++ b)
    /\ (sign = "" \/ sign = "-")
    /\ (1 <= String.length a)%nat /\ only_digits a = true
    /\ String.length b = 2%nat /\ only_digits b = true.
Proof.
  exact (@savings_total_has_two_decimals (S754_zero false) (or_introl eq_refl)).
Defined.

End DisplayExtras.

(* ================================================================== *)
(** * Properties of [formatActionPlan] *)
(* ================================================================== *)

Module FormatExtras.

Import JS Display Spec StringProofs.
Open Scope string_scope.

Lemma occurs_append c (a b : string) :
  occurs c (a ++ b) = occurs c a || occurs c b.
Proof.
  induction a as [|x a IH]; cbn; [reflexivity|].
  now rewrite IH, orb_assoc.
Qed.

(** ** The output holds no line feed *)

Lemma breaks_no_line_feed (s : string) : occurs LF (breaks s) = false.
Proof.
  induction s as [|c s IH]; [reflexivity|]. cbn [breaks].
  destruct (Ascii.eqb c LF) eqn:E.
  - rewrite occurs_append, IH. reflexivity.
  - cbn [occurs]. now rewrite E, IH.
Qed.

(** ** Text without markup passes through *)

Lemma prefix_star_head delim c rest :
  Ascii.eqb c "*" = false ->
  prefix (String "*" delim) (String c rest) = false.
Proof.
  intros H. cbn [prefix]. destruct (ascii_dec "*" c) as [<-|]; [|reflexivity].
  now rewrite Ascii.eqb_refl in H.
Qed.

(** Whatever the fuel, a string without [*] is left as it is. *)
Lemma replace_delimited_plain delim opening closing (s : string) :
  occurs "*" s = false ->
  forall fuel,
    replace_delimited fuel (String "*" delim) opening closing s = s.
Proof.
  induction s as [|c s IH]; intros H fuel; destruct fuel; try reflexivity.
  cbn [occurs] in H. apply orb_false_elim in H as [Hc Hs].
  cbn [replace_delimited]. rewrite (@prefix_star_head delim c s Hc).
  now rewrite IH.
Qed.

Lemma paragraphs_step c1 c2 rest :
  paragraphs (String c1 (String c2 rest))
  = if Ascii.eqb c1 LF && Ascii.eqb c2 LF
    then "</p><p>" ++ paragraphs rest
    else String c1 (paragraphs (String c2 rest)).
Proof. reflexivity. Qed.

Lemma paragraphs_plain (s : string) : occurs LF s = false -> paragraphs s = s.
Proof.
  assert (H : forall n s, (String.length s <= n)%nat ->
                          occurs LF s = false -> paragraphs s = s).
  { induction n as [|n IH]; intros [|c1 [|c2 rest]] Hlen Hocc; try reflexivity;
      cbn in Hlen; try lia.
    cbn [occurs] in Hocc. apply orb_false_elim in Hocc as [H1 H2].
    rewrite paragraphs_step, H1. cbn [andb].
    f_equal. apply IH; [cbn; lia | exact H2]. }
  intros Hs. now apply (H (String.length s)).
Qed.

Lemma breaks_plain (s : string) : occurs LF s = false -> breaks s = s.
Proof.
  induction s as [|c s IH]; [reflexivity|]. cbn [occurs breaks].
  intros H. apply orb_false_elim in H as [Hc Hs]. rewrite Hc. now rewrite IH.
Qed.


(** ** One delimited run *)

Lemma prefix_append (d r : string) : prefix d (d ++ r) = true.
Proof.
  induction d as [|c d IH]; cbn [prefix append]; [now destruct r|].
  destruct (ascii_dec c c); [exact IH | contradiction].
Qed.

Lemma skip_append (d r : string) : skip (String.length d) (d ++ r) = r.
Proof. induction d as [|c d IH]; cbn; [now destruct r | exact IH]. Qed.

(** A pattern without [*] that matches in front of a [*] matches within
    what precedes the [*]. *)
Lemma prefix_before_star (p : string) :
  occurs "*" p = false ->
  forall x r, prefix p (x ++ String "*" r) = prefix p x.
Proof.
  induction p as [|a p IH]; intros Hp x r.
  - now destruct x.
  - cbn [occurs] in Hp. apply orb_false_elim in Hp as [Ha Hp].
    destruct x as [|c x]; cbn [append prefix].
    + destruct (ascii_dec a "*") as [->|]; [|reflexivity].
      now rewrite Ascii.eqb_refl in Ha.
    + destruct (ascii_dec a c); [now apply IH | reflexivity].
Qed.

Lemma at_line_terminator_before_star (x r : string) :
  at_line_terminator (x ++ String "*" r) = at_line_terminator x.
Proof.
  unfold at_line_terminator.
  now rewrite !prefix_before_star by reflexivity.
Qed.

Lemma lazy_until_step delim c rest :
  lazy_until delim (String c rest)
  = if prefix delim (String c rest)
    then Some ("", skip (String.length delim) (String c rest))
    else if at_line_terminator (String c rest) then None
         else match lazy_until delim rest with
              | Some (run, after) => Some (String c run, after)
              | None => None
              end.
Proof. reflexivity. Qed.

(** The lazy run stops at the first delimiter after a run without [*] and
    without line terminator. *)
Lemma lazy_until_run d (x b : string) :
  occurs "*" x = false ->
  has_line_terminator x = false ->
  lazy_until (String "*" d) (x ++ String "*" d ++ b) = Some (x, b).
Proof.
  induction x as [|c x IH]; intros Hstar Hterm.
  - cbn [append]. rewrite lazy_until_step.
    change (String "*" (d ++ b)) with (String "*" d ++ b).
    rewrite prefix_append, skip_append. reflexivity.
  - cbn [occurs] in Hstar. apply orb_false_elim in Hstar as [Hc Hx].
    cbn [has_line_terminator] in Hterm. apply orb_false_elim in Hterm as [Hat Hterm].
    cbn [append]. rewrite lazy_until_step.
    rewrite (@prefix_star_head d c _ Hc).
    change (at_line_terminator (String c (x ++ String "*" (d ++ b))))
      with (at_line_terminator (String c x ++ String "*" (d ++ b))).
    rewrite at_line_terminator_before_star, Hat.
    change (String "*" (d ++ b)) with (String "*" d ++ b).
    now rewrite (IH Hx Hterm).
Qed.

Lemma replace_delimited_prefix d opening closing (a t : string) :
  occurs "*" a = false ->
  forall fuel,
    replace_delimited (String.length a + fuel) (String "*" d) opening closing (a ++ t)
    = a ++ replace_delimited fuel (String "*" d) opening closing t.
Proof.
  induction a as [|c a IH]; intros Ha fuel; [reflexivity|].
  cbn [occurs] in Ha. apply orb_false_elim in Ha as [Hc Ha].
  cbn [String.length Nat.add append replace_delimited].
  rewrite (@prefix_star_head d c _ Hc). now rewrite IH.
Qed.

(** One run between two delimiters, in a text that holds no other [*]. *)
Lemma replace_delimited_run d opening closing (a x b : string) (fuel : nat) :
  occurs "*" a = false ->
  occurs "*" x = false ->
  has_line_terminator x = false ->
  occurs "*" b = false ->
  replace_delimited (String.length a + S fuel) (String "*" d) opening closing
    (a ++ String "*" d ++ x ++ String "*" d ++ b)
  = a ++ opening ++ x ++ closing ++ b.
Proof.
  intros Ha Hx Hterm Hb.
  rewrite replace_delimited_prefix by assumption.
  cbn [append replace_delimited].
  change (String "*" (d ++ x ++ String "*" (d ++ b)))
    with (String "*" d ++ (x ++ String "*" d ++ b)).
  rewrite prefix_append, skip_append, lazy_until_run by assumption.
  now rewrite replace_delimited_plain.
Qed.

Lemma occurs_line_feed_terminator (s : string) :
  has_line_terminator s = false -> occurs LF s = false.
Proof.
  induction s as [|c s IH]; [reflexivity|].
  cbn [has_line_terminator occurs]. intros H.
  apply orb_false_elim in H as [Hat Hs]. rewrite (IH Hs), orb_false_r.
  unfold at_line_terminator in Hat.
  apply orb_false_elim in Hat as [Hat _]. apply orb_false_elim in Hat as [Hat _].
  apply orb_false_elim in Hat as [Hat _]. cbn [prefix] in Hat.
  destruct (Ascii.eqb c LF) eqn:E; [|reflexivity].
  apply Ascii.eqb_eq in E. subst c.
  destruct (ascii_dec LF LF) as [_|Hne]; [destruct s; discriminate | contradiction].
Qed.

Lemma has_double_star_plain (s : string) :
  occurs "*" s = false -> has_double_star s = false.
Proof.
  induction s as [|c s IH]; [reflexivity|].
  cbn [occurs has_double_star]. intros H. apply orb_false_elim in H as [Hc Hs].
  now rewrite (@prefix_star_head "*" c s Hc), IH.
Qed.

Lemma has_double_star_prefix (a t : string) :
  occurs "*" a = false -> has_double_star (a ++ t) = has_double_star t.
Proof.
  induction a as [|c a IH]; [reflexivity|].
  cbn [occurs append has_double_star]. intros H. apply orb_false_elim in H as [Hc Ha].
  now rewrite (@prefix_star_head "*" c _ Hc), IH.
Qed.

(** Whatever the fuel, [bold] leaves a text without two asterisks in a row
    as it is. *)
Lemma replace_double_star_free opening closing (s : string) :
  has_double_star s = false ->
  forall fuel, replace_delimited fuel "**" opening closing s = s.
Proof.
  induction s as [|c s IH]; intros H fuel; destruct fuel; try reflexivity.
  cbn [has_double_star] in H. apply orb_false_elim in H as [Hp Hs].
  cbn [replace_delimited]. rewrite Hp. now rewrite IH.
Qed.


(** ** The fuel is enough *)

Lemma length_skip (n : nat) (s : string) :
  (String.length (skip n s) <= String.length s)%nat.
Proof.
  revert s. induction n as [|n IH]; intros [|c s]; cbn; try lia.
  specialize (IH s). lia.
Qed.

Lemma lazy_until_shorter delim (t run after : string) :
  lazy_until delim t = Some (run, after) ->
  (String.length after <= String.length t)%nat.
Proof.
  revert run after. induction t as [|c t IH]; intros run after.
  - cbn. destruct delim; [|intros; discriminate].
    intros [= <- <-]. cbn. lia.
  - rewrite lazy_until_step. destruct (prefix delim (String c t)).
    + intros [= <- <-]. apply length_skip.
    + destruct (at_line_terminator (String c t)); [discriminate|].
      destruct (lazy_until delim t) as [[run' after']|]; [|discriminate].
      intros [= <- <-]. specialize (IH _ _ eq_refl). cbn. lia.
Qed.

(** With at least as much fuel as the text has characters, the replacement
    does not depend on the fuel: the scan always reaches the end. *)
Lemma replace_delimited_fuel d opening closing :
  forall n m s,
    (String.length s <= n)%nat -> (String.length s <= m)%nat ->
    replace_delimited n (String "*" d) opening closing s
    = replace_delimited m (String "*" d) opening closing s.
Proof.
  induction n as [|n IH]; intros m s Hn Hm.
  - destruct s; [|cbn in Hn; lia]. now destruct m.
  - destruct m as [|m]; [destruct s; [reflexivity | cbn in Hm; lia]|].
    destruct s as [|c s]; [reflexivity|]. cbn in Hn, Hm.
    cbn [replace_delimited]. destruct (prefix (String "*" d) (String c s)).
    + cbn [String.length skip].
      destruct (lazy_until (String "*" d) (skip (String.length d) s))
        as [[run after]|] eqn:E.
      * pose proof (lazy_until_shorter _ _ E) as H1.
        pose proof (length_skip (String.length d) s) as H2.
        do 3 f_equal. apply IH; lia.
      * f_equal. apply IH; lia.
    + f_equal. apply IH; lia.
Qed.

(** ** The four properties *)

(** X18 (single line).  On every string [formatActionPlan] returns, and
    what it returns holds no line feed. *)
Theorem format_output_has_no_line_feed (s : string) :
  exists out,
    formatActionPlan (VStr s) = Ok out
    /\ occurs LF out = false.
Proof. eexists. split; [reflexivity|]. apply breaks_no_line_feed. Qed.

(** X19 (no escaping).  A text that holds neither an asterisk nor a line
    feed is returned as it is, HTML tags included. *)
Theorem format_plain_text_unchanged (s : string) :
  occurs "*" s = false ->
  occurs LF s = false ->
  formatActionPlan (VStr s) = Ok s.
Proof.
  intros Hstar Hlf. cbn [formatActionPlan]. unfold bold, italic.
  rewrite (@replace_delimited_plain "*" _ _ s Hstar).
  rewrite (@replace_delimited_plain "" _ _ s Hstar).
  now rewrite paragraphs_plain, breaks_plain.
Qed.

Lemma format_plain_text_unchanged_witness :
  formatActionPlan (VStr "<img src=x onerror=alert(1)>")
  = Ok "<img src=x onerror=alert(1)>".
Proof.
  exact (@format_plain_text_unchanged "<img src=x onerror=alert(1)>" eq_refl eq_refl).
Defined.

(** X20 (bold).  In a text that holds no other asterisk and no line feed,
    a run between two double asterisks that holds no line terminator is
    wrapped in [<strong>]. *)
Theorem format_wraps_double_star_run (a x b : string) :
  occurs "*" a = false -> occurs LF a = false ->
  occurs "*" x = false -> has_line_terminator x = false ->
  occurs "*" b = false -> occurs LF b = false ->
  formatActionPlan (VStr (a ++ "**" ++ x ++ "**" ++ b))
  = Ok (a ++ "<strong>" ++ x ++ "</strong>" ++ b).
Proof.
  intros Ha Hal Hx Hxt Hb Hbl. cbn [formatActionPlan]. unfold bold.
  assert (Hlen : String.length (a ++ "**" ++ x ++ "**" ++ b)
                 = (String.length a + S (S (String.length (x ++ "**" ++ b))))%nat)
    by (rewrite length_append; reflexivity).
  rewrite Hlen, (@replace_delimited_run "*" _ _ a x b _ Ha Hx Hxt Hb).
  assert (Hstar : occurs "*" (a ++ "<strong>" ++ x ++ "</strong>" ++ b) = false)
    by (rewrite !occurs_append, Ha, Hx, Hb; reflexivity).
  assert (Hlf : occurs LF (a ++ "<strong>" ++ x ++ "</strong>" ++ b) = false)
    by (rewrite !occurs_append, Hal, Hbl, (occurs_line_feed_terminator x Hxt);
        reflexivity).
  unfold italic. rewrite (@replace_delimited_plain "" _ _ _ Hstar).
  now rewrite paragraphs_plain, breaks_plain.
Qed.

Lemma format_wraps_double_star_run_witness :
  formatActionPlan (VStr ("Take " ++ "**" ++ "one tablet" ++ "**" ++ " daily"))
  = Ok ("Take " ++ "<strong>" ++ "one tablet" ++ "</strong>" ++ " daily").
Proof.
  exact (@format_wraps_double_star_run "Take " "one tablet" " daily"
           eq_refl eq_refl eq_refl eq_refl eq_refl eq_refl).
Defined.

(** X21 (italics).  In a text that holds no other asterisk and no line
    feed, a non-empty run between two single asterisks that holds no line
    terminator is wrapped in [<em>]. *)
Theorem format_wraps_single_star_run (a x b : string) :
  occurs "*" a = false -> occurs LF a = false ->
  occurs "*" x = false -> has_line_terminator x = false -> x <> "" ->
  occurs "*" b = false -> occurs LF b = false ->
  formatActionPlan (VStr (a ++ "*" ++ x ++ "*" ++ b))
  = Ok (a ++ "<em>" ++ x ++ "</em>" ++ b).
Proof.
  intros Ha Hal Hx Hxt Hne Hb Hbl. cbn [formatActionPlan].
  assert (Hfree : has_double_star (a ++ "*" ++ x ++ "*" ++ b) = false).
  { rewrite has_double_star_prefix by assumption.
    destruct x as [|c x]; [contradiction|].
    cbn [occurs] in Hx. apply orb_false_elim in Hx as [Hc Hx].
    cbn [append has_double_star].
    assert (H1 : forall r, prefix "**" (String "*" (String c r)) = false).
    { intros r. cbn [prefix]. destruct (ascii_dec "*" "*"); [|contradiction].
      destruct (ascii_dec "*" c) as [<-|]; [|reflexivity].
      now rewrite Ascii.eqb_refl in Hc. }
    rewrite H1, (@prefix_star_head "*" c _ Hc). cbn [orb].
    rewrite has_double_star_prefix by assumption.
    cbn [append has_double_star]. rewrite (has_double_star_plain b Hb), orb_false_r.
    destruct b as [|c' b]; [reflexivity|].
    cbn [occurs] in Hb. apply orb_false_elim in Hb as [Hc' _].
    cbn [prefix]. destruct (ascii_dec "*" "*"); [|contradiction].
    destruct (ascii_dec "*" c') as [<-|]; [|reflexivity].
    now rewrite Ascii.eqb_refl in Hc'. }
  unfold bold. rewrite (@replace_double_star_free _ _ _ Hfree).
  unfold italic.
  assert (Hlen : String.length (a ++ "*" ++ x ++ "*" ++ b)
                 = (String.length a + S (String.length (x ++ "*" ++ b)))%nat)
    by (rewrite length_append; reflexivity).
  rewrite Hlen, (@replace_delimited_run "" _ _ a x b _ Ha Hx Hxt Hb).
  assert (Hlf : occurs LF (a ++ "<em>" ++ x ++ "</em>" ++ b) = false)
    by (rewrite !occurs_append, Hal, Hbl, (occurs_line_feed_terminator x Hxt);
        reflexivity).
  now rewrite paragraphs_plain, breaks_plain.
Qed.

Lemma format_wraps_single_star_run_witness :
  formatActionPlan (VStr ("Take " ++ "*" ++ "with food" ++ "*" ++ ""))
  = Ok ("Take " ++ "<em>" ++ "with food" ++ "</em>" ++ "").
Proof.
  refine (@format_wraps_single_star_run "Take " "with food" ""
            eq_refl eq_refl eq_refl eq_refl _ eq_refl eq_refl).
  discriminate.
Defined.

End FormatExtras.
